(** * Guides-on-map controller (map/guides_manager.cpp)

    A shallow embedding of [GuidesManager]: the controller's members are the
    fields of a record, every member function is a function from controller
    state to controller state, and the two reply lambdas built by
    [RequestGuides] are functions of their own, run when the catalog API
    delivers a reply.

    What the controller only talks to (the screen geometry, the tile-scale
    helper, the bookmark catalog, the URL helpers) lives outside
    guides_manager.cpp and is gathered in the record [Env]; the controller is
    defined and verified for every such environment.

    Numbers: [double] values are exact rationals ([Q]), so rounding is not
    modelled, while a division by zero keeps its IEEE-754 outcome (see
    [fdiv]).  The two counts of a guide record are added as the code adds
    them, in their unsigned type and so modulo a power of two (see
    [addCounts]).  The request, error and mark counters are naturals ([N])
    without wrap-around. *)

From Stdlib Require Import QArith Qabs ZArith NArith List Bool Lia Lqa DecimalString.
From stdpp Require Import gmap strings list.
Import ListNotations.

Close Scope Q_scope.
Local Open Scope N_scope.

(** ** Plain data *)

(** m2::PointD *)
Definition PointD : Type := (Q * Q)%type.

(** GuidesManager::GuidesState *)
Inductive GuidesState : Type :=
| Disabled
| Enabled
| HasData
| NoData
| NetworkError
| FatalNetworkError.

#[global] Instance GuidesState_eq_dec : EqDecision GuidesState.
Proof. solve_decision. Defined.

(** The block [m_guideInfo] of a guide record, with the fields the
    controller reads. *)
Record GuideInfo : Type := mkGuideInfo {
  m_id : string;
  m_name : string;
  m_imageUrl : string;
  m_bookmarksCount : N;
  m_hasTrack : bool;
  m_tourDuration : N;
  m_tracksLength : Q;
  m_ascent : N;
  m_tag : string
}.

(** One element of guides_on_map::GuidesOnMap. *)
Record GuidesNode : Type := mkGuidesNode {
  m_guideInfo : GuideInfo;
  m_point : PointD;
  m_sightsCount : N;
  m_outdoorCount : N
}.

Definition GuidesOnMap : Type := list GuidesNode.

(** *** Marks kept by the bookmark manager *)

Inductive GuideMarkType : Type := MarkCity | MarkOutdoor.

Record GuidesClusterMark : Type := mkClusterMark {
  cluster_pivot : PointD;
  cluster_sights : N;
  cluster_outdoor : N;
  cluster_index : N
}.

Record GuideMark : Type := mkGuideMark {
  guide_pivot : PointD;
  guide_type : GuideMarkType;
  guide_id : string;
  guide_isDownloaded : bool;
  guide_index : N
}.

Record GuideSelectionMark : Type := mkSelectionMark {
  selection_pivot : PointD
}.

(** The three mark groups the controller edits (UserMark::GUIDE_CLUSTER,
    UserMark::GUIDE, UserMark::GUIDE_SELECTION), each in creation order,
    which is also the order of the mark ids handed out by the manager. *)
Record BookmarkManager : Type := mkBookmarkManager {
  group_GUIDE_CLUSTER : list GuidesClusterMark;
  group_GUIDE : list GuideMark;
  group_GUIDE_SELECTION : list GuideSelectionMark
}.

Definition ClearGroup_GUIDE_CLUSTER (bm : BookmarkManager) : BookmarkManager :=
  mkBookmarkManager [] (group_GUIDE bm) (group_GUIDE_SELECTION bm).

Definition ClearGroup_GUIDE (bm : BookmarkManager) : BookmarkManager :=
  mkBookmarkManager (group_GUIDE_CLUSTER bm) [] (group_GUIDE_SELECTION bm).

Definition ClearGroup_GUIDE_SELECTION (bm : BookmarkManager) : BookmarkManager :=
  mkBookmarkManager (group_GUIDE_CLUSTER bm) (group_GUIDE bm) [].

Definition CreateClusterMark (m : GuidesClusterMark) (bm : BookmarkManager)
  : BookmarkManager :=
  mkBookmarkManager (group_GUIDE_CLUSTER bm ++ [m]) (group_GUIDE bm)
                    (group_GUIDE_SELECTION bm).

Definition CreateGuideMark (m : GuideMark) (bm : BookmarkManager)
  : BookmarkManager :=
  mkBookmarkManager (group_GUIDE_CLUSTER bm) (group_GUIDE bm ++ [m])
                    (group_GUIDE_SELECTION bm).

Definition CreateSelectionMark (m : GuideSelectionMark) (bm : BookmarkManager)
  : BookmarkManager :=
  mkBookmarkManager (group_GUIDE_CLUSTER bm) (group_GUIDE bm)
                    (group_GUIDE_SELECTION bm ++ [m]).

(** *** Gallery *)

Inductive ItemType : Type := City | Outdoor.

Record CityParams : Type := mkCityParams {
  city_bookmarksCount : N;
  city_trackIsAvailable : bool
}.

Record OutdoorParams : Type := mkOutdoorParams {
  outdoor_tag : string;
  outdoor_distance : Q;
  outdoor_duration : N;
  outdoor_ascent : N
}.

(** GuidesGallery::Item; an item carries both parameter blocks, the one its
    type does not use keeps its default value. *)
Record Item : Type := mkItem {
  item_guideId : string;
  item_url : string;
  item_imageUrl : string;
  item_title : string;
  item_type : ItemType;
  item_downloaded : bool;
  item_cityParams : CityParams;
  item_outdoorsParams : OutdoorParams
}.

Definition default_CityParams : CityParams := mkCityParams 0 false.
Definition default_OutdoorParams : OutdoorParams :=
  mkOutdoorParams EmptyString (0 # 1)%Q 0 0.

Record GuidesGallery : Type := mkGallery { m_items : list Item }.

(** *** What the listeners and the drape engine are told *)

Inductive Notification : Type :=
| StateChanged (newState : GuidesState)      (* m_onStateChanged(newState) *)
| GalleryChanged (reload : bool).            (* m_onGalleryChanged(reload) *)

(** df::DrapeEngine::Scale(factor, pxPoint, isAnim) *)
Record DrapeScale : Type := mkDrapeScale {
  scale_factor : Q;
  scale_pxPoint : PointD;
  scale_isAnim : bool
}.

Inductive UTM : Type := UTM_GuidesOnMapGallery.

(** ** Constants of the anonymous namespace *)

Definition kRequestAttemptsCount : N := 3.
Definition kScaleEps : Q := (1115 # 10000)%Q.

(** ** Floating-point comparisons

    The outcome of a [double] division: a number, an infinity or NaN. *)
Inductive fval : Type :=
| FNum (q : Q)
| FPosInf
| FNegInf
| FNaN.

(** [a / b] on doubles, exact when [b] is not zero. *)
Definition fdiv (a b : Q) : fval :=
  if Qeq_bool b (0 # 1) then
    if Qeq_bool a (0 # 1) then FNaN
    else if Qle_bool (0 # 1) a then FPosInf else FNegInf
  else FNum (a / b)%Q.

(** [x > eps] on doubles: false whenever [x] is NaN. *)
Definition fgt (x : fval) (eps : Q) : bool :=
  match x with
  | FNum q => negb (Qle_bool q eps)
  | FPosInf => true
  | FNegInf => false
  | FNaN => false
  end.

Arguments fdiv _ _ : simpl never.
Arguments fgt _ _ : simpl never.

(** std::to_string on an unsigned count. *)
Definition to_string (n : N) : string := NilZero.string_of_uint (N.to_uint n).

(** ** The environment of the controller *)

Record Env : Type := mkEnv {
  ScreenBase : Type;
  AnyRectD : Type;
  Corners : Type;
  (* a default-constructed ScreenBase, the first value of m_screen *)
  defaultScreen : ScreenBase;
  (* ScreenBase::GetScale and ScreenBase::GlobalRect *)
  GetScale : ScreenBase -> Q;
  GlobalRect : ScreenBase -> AnyRectD;
  (* ScreenBase::GtoP *)
  GtoP : ScreenBase -> PointD -> PointD;
  (* rect.GetLocalRect().IsEmptyInterior() *)
  IsEmptyInterior : AnyRectD -> bool;
  (* AnyRectD::GetGlobalPoints *)
  GetGlobalPoints : AnyRectD -> Corners;
  (* df::GetDrawTileScale *)
  GetDrawTileScale : ScreenBase -> Z;
  (* geometry::GetIntersectionScoreForPoints *)
  GetIntersectionScoreForPoints : Corners -> Corners -> Q;
  (* m_bmManager->GetCatalog().HasDownloaded *)
  HasDownloaded : string -> bool;
  (* URL helpers *)
  BOOKMARKS_CATALOG_FRONT_URL : string;
  GetCurrentNorm : string;
  url_Join : list string -> string;
  InjectUTM : string -> UTM -> string;
  InjectUTMTerm : string -> string -> string;
  (* the number of bits of the unsigned type of m_sightsCount and
     m_outdoorCount (32 for uint32_t) *)
  countBits : N
}.

(** ** The controller *)

Section Controller.

Context (E : Env).

(** A call of m_api.GetGuidesOnMap that has not been answered yet: the
    rectangle and zoom it was made with and the request number captured by
    its failure lambda. *)
Record Request : Type := mkRequest {
  req_rect : AnyRectD E;
  req_zoom : Z;
  req_number : N
}.

(** The members of GuidesManager.  The two listeners are kept as "is one
    registered"; what they are told is appended to [notifications].
    [m_api] is the queue of unanswered requests, [m_drapeEngine] the
    commands sent to the engine. *)
Record GuidesManager : Type := mkGuidesManager {
  m_state : GuidesState;
  m_onStateChanged : bool;
  m_onGalleryChanged : bool;
  m_zoom : Z;
  m_screen : ScreenBase E;
  m_requestCounter : N;
  m_errorRequestsCount : N;
  m_guides : GuidesOnMap;
  m_activeGuide : string;
  m_shownGuides : gset string;
  m_nextMarkIndex : N;
  m_bmManager : BookmarkManager;
  m_api : list Request;
  notifications : list Notification;
  m_drapeEngine : list DrapeScale
}.

(** Modelled from the spec: the first values of the members are given in
    guides_manager.hpp, which is not part of the sources at hand.  The
    controller starts Disabled, without guides, marks, listeners or
    requests, with both counters at 0; [m_zoom] is 0 until a viewport is
    recorded, which is what IsRequestParamsInitialized tests. *)
Definition init : GuidesManager :=
  mkGuidesManager Disabled false false 0%Z (defaultScreen E) 0 0 [] EmptyString
                  ∅ 0 (mkBookmarkManager [] [] []) [] [] [].

(** *** Assignments to single members *)

Definition set_state (v : GuidesState) (s : GuidesManager) : GuidesManager :=
  mkGuidesManager v (m_onStateChanged s) (m_onGalleryChanged s) (m_zoom s)
    (m_screen s) (m_requestCounter s) (m_errorRequestsCount s) (m_guides s)
    (m_activeGuide s) (m_shownGuides s) (m_nextMarkIndex s) (m_bmManager s)
    (m_api s) (notifications s) (m_drapeEngine s).

Definition set_onStateChanged (v : bool) (s : GuidesManager) : GuidesManager :=
  mkGuidesManager (m_state s) v (m_onGalleryChanged s) (m_zoom s)
    (m_screen s) (m_requestCounter s) (m_errorRequestsCount s) (m_guides s)
    (m_activeGuide s) (m_shownGuides s) (m_nextMarkIndex s) (m_bmManager s)
    (m_api s) (notifications s) (m_drapeEngine s).

Definition set_onGalleryChanged (v : bool) (s : GuidesManager) : GuidesManager :=
  mkGuidesManager (m_state s) (m_onStateChanged s) v (m_zoom s)
    (m_screen s) (m_requestCounter s) (m_errorRequestsCount s) (m_guides s)
    (m_activeGuide s) (m_shownGuides s) (m_nextMarkIndex s) (m_bmManager s)
    (m_api s) (notifications s) (m_drapeEngine s).

Definition set_zoom (v : Z) (s : GuidesManager) : GuidesManager :=
  mkGuidesManager (m_state s) (m_onStateChanged s) (m_onGalleryChanged s) v
    (m_screen s) (m_requestCounter s) (m_errorRequestsCount s) (m_guides s)
    (m_activeGuide s) (m_shownGuides s) (m_nextMarkIndex s) (m_bmManager s)
    (m_api s) (notifications s) (m_drapeEngine s).

Definition set_screen (v : ScreenBase E) (s : GuidesManager) : GuidesManager :=
  mkGuidesManager (m_state s) (m_onStateChanged s) (m_onGalleryChanged s)
    (m_zoom s) v (m_requestCounter s) (m_errorRequestsCount s) (m_guides s)
    (m_activeGuide s) (m_shownGuides s) (m_nextMarkIndex s) (m_bmManager s)
    (m_api s) (notifications s) (m_drapeEngine s).

Definition set_requestCounter (v : N) (s : GuidesManager) : GuidesManager :=
  mkGuidesManager (m_state s) (m_onStateChanged s) (m_onGalleryChanged s)
    (m_zoom s) (m_screen s) v (m_errorRequestsCount s) (m_guides s)
    (m_activeGuide s) (m_shownGuides s) (m_nextMarkIndex s) (m_bmManager s)
    (m_api s) (notifications s) (m_drapeEngine s).

Definition set_errorRequestsCount (v : N) (s : GuidesManager) : GuidesManager :=
  mkGuidesManager (m_state s) (m_onStateChanged s) (m_onGalleryChanged s)
    (m_zoom s) (m_screen s) (m_requestCounter s) v (m_guides s)
    (m_activeGuide s) (m_shownGuides s) (m_nextMarkIndex s) (m_bmManager s)
    (m_api s) (notifications s) (m_drapeEngine s).

Definition set_guides (v : GuidesOnMap) (s : GuidesManager) : GuidesManager :=
  mkGuidesManager (m_state s) (m_onStateChanged s) (m_onGalleryChanged s)
    (m_zoom s) (m_screen s) (m_requestCounter s) (m_errorRequestsCount s) v
    (m_activeGuide s) (m_shownGuides s) (m_nextMarkIndex s) (m_bmManager s)
    (m_api s) (notifications s) (m_drapeEngine s).

Definition set_activeGuide (v : string) (s : GuidesManager) : GuidesManager :=
  mkGuidesManager (m_state s) (m_onStateChanged s) (m_onGalleryChanged s)
    (m_zoom s) (m_screen s) (m_requestCounter s) (m_errorRequestsCount s)
    (m_guides s) v (m_shownGuides s) (m_nextMarkIndex s) (m_bmManager s)
    (m_api s) (notifications s) (m_drapeEngine s).

Definition set_shownGuides (v : gset string) (s : GuidesManager) : GuidesManager :=
  mkGuidesManager (m_state s) (m_onStateChanged s) (m_onGalleryChanged s)
    (m_zoom s) (m_screen s) (m_requestCounter s) (m_errorRequestsCount s)
    (m_guides s) (m_activeGuide s) v (m_nextMarkIndex s) (m_bmManager s)
    (m_api s) (notifications s) (m_drapeEngine s).

Definition set_nextMarkIndex (v : N) (s : GuidesManager) : GuidesManager :=
  mkGuidesManager (m_state s) (m_onStateChanged s) (m_onGalleryChanged s)
    (m_zoom s) (m_screen s) (m_requestCounter s) (m_errorRequestsCount s)
    (m_guides s) (m_activeGuide s) (m_shownGuides s) v (m_bmManager s)
    (m_api s) (notifications s) (m_drapeEngine s).

Definition set_bmManager (v : BookmarkManager) (s : GuidesManager) : GuidesManager :=
  mkGuidesManager (m_state s) (m_onStateChanged s) (m_onGalleryChanged s)
    (m_zoom s) (m_screen s) (m_requestCounter s) (m_errorRequestsCount s)
    (m_guides s) (m_activeGuide s) (m_shownGuides s) (m_nextMarkIndex s) v
    (m_api s) (notifications s) (m_drapeEngine s).

Definition set_api (v : list Request) (s : GuidesManager) : GuidesManager :=
  mkGuidesManager (m_state s) (m_onStateChanged s) (m_onGalleryChanged s)
    (m_zoom s) (m_screen s) (m_requestCounter s) (m_errorRequestsCount s)
    (m_guides s) (m_activeGuide s) (m_shownGuides s) (m_nextMarkIndex s)
    (m_bmManager s) v (notifications s) (m_drapeEngine s).

(** Calling a listener: the notification is appended to the log. *)
Definition notify (n : Notification) (s : GuidesManager) : GuidesManager :=
  mkGuidesManager (m_state s) (m_onStateChanged s) (m_onGalleryChanged s)
    (m_zoom s) (m_screen s) (m_requestCounter s) (m_errorRequestsCount s)
    (m_guides s) (m_activeGuide s) (m_shownGuides s) (m_nextMarkIndex s)
    (m_bmManager s) (m_api s) (notifications s ++ [n]) (m_drapeEngine s).

(** m_drapeEngine.SafeCall(&df::DrapeEngine::Scale, ...) *)
Definition drape_Scale (c : DrapeScale) (s : GuidesManager) : GuidesManager :=
  mkGuidesManager (m_state s) (m_onStateChanged s) (m_onGalleryChanged s)
    (m_zoom s) (m_screen s) (m_requestCounter s) (m_errorRequestsCount s)
    (m_guides s) (m_activeGuide s) (m_shownGuides s) (m_nextMarkIndex s)
    (m_bmManager s) (m_api s) (notifications s) (m_drapeEngine s ++ [c]).

(** *** Member functions, in the order of the source *)

Definition GetState (s : GuidesManager) : GuidesState := m_state s.

(** [fn] tells whether the listener passed in is non-null. *)
Definition SetStateListener (fn : bool) (s : GuidesManager) : GuidesManager :=
  let s := set_onStateChanged fn s in
  if m_onStateChanged s then notify (StateChanged (m_state s)) s else s.

Definition IsEnabled (s : GuidesManager) : bool :=
  negb (bool_decide (m_state s = Disabled)).

Definition ChangeState (newState : GuidesState) (s : GuidesManager)
  : GuidesManager :=
  if bool_decide (m_state s = newState) then s
  else
    let s := set_state newState s in
    if m_onStateChanged s then notify (StateChanged newState) s else s.

Definition IsGuideDownloaded (guideId : string) : bool := HasDownloaded E guideId.

Definition IsRequestParamsInitialized (s : GuidesManager) : bool :=
  IsEmptyInterior E (GlobalRect E (m_screen s)) || negb (m_zoom s =? 0)%Z.

Definition UpdateActiveGuide (s : GuidesManager) : GuidesManager :=
  let s := set_bmManager (ClearGroup_GUIDE_SELECTION (m_bmManager s)) s in
  match List.find (fun mark => String.eqb (guide_id mark) (m_activeGuide s))
                  (group_GUIDE (m_bmManager s)) with
  | Some mark =>
      set_bmManager
        (CreateSelectionMark (mkSelectionMark (guide_pivot mark)) (m_bmManager s)) s
  | None => set_activeGuide EmptyString s
  end.

(** [a + b] on two counts of a guide record: unsigned, so the sum wraps
    around at 2 ^ countBits. *)
Definition addCounts (a b : N) : N := (a + b) mod 2 ^ countBits E.

(** The body of the loop of UpdateGuidesMarks for one guide. *)
Definition UpdateGuidesMarks_guide (s : GuidesManager) (guide : GuidesNode)
  : GuidesManager :=
  if 1 <? addCounts (m_sightsCount guide) (m_outdoorCount guide) then
    let s := set_nextMarkIndex (m_nextMarkIndex s + 1) s in
    set_bmManager
      (CreateClusterMark
         (mkClusterMark (m_point guide) (m_sightsCount guide)
                        (m_outdoorCount guide) (m_nextMarkIndex s))
         (m_bmManager s)) s
  else
    let s := set_nextMarkIndex (m_nextMarkIndex s + 1) s in
    let s :=
      set_bmManager
        (CreateGuideMark
           (mkGuideMark (m_point guide)
              (if 0 <? m_sightsCount guide then MarkCity else MarkOutdoor)
              (m_id (m_guideInfo guide))
              (IsGuideDownloaded (m_id (m_guideInfo guide)))
              (m_nextMarkIndex s))
           (m_bmManager s)) s in
    set_shownGuides ({[ m_id (m_guideInfo guide) ]} ∪ m_shownGuides s) s.

Definition UpdateGuidesMarks (s : GuidesManager) : GuidesManager :=
  let s := set_bmManager (ClearGroup_GUIDE_CLUSTER (m_bmManager s)) s in
  let s := set_bmManager (ClearGroup_GUIDE (m_bmManager s)) s in
  let s := fold_left UpdateGuidesMarks_guide (m_guides s) s in
  UpdateActiveGuide s.

Definition Clear (s : GuidesManager) : GuidesManager :=
  let s := set_activeGuide EmptyString s in
  let s := set_guides [] s in
  let s := set_errorRequestsCount 0 s in
  UpdateGuidesMarks s.

(** RequestGuides up to the call of the API: the request joins the queue of
    unanswered ones, together with the number its failure lambda captures. *)
Definition RequestGuides (s : GuidesManager) : GuidesManager :=
  if negb (IsRequestParamsInitialized s) then s
  else
    let s := set_requestCounter (m_requestCounter s + 1) s in
    let requestNumber := m_requestCounter s in
    set_api (m_api s ++ [mkRequest (GlobalRect E (m_screen s)) (m_zoom s)
                                   requestNumber]) s.

(** The first lambda passed to GetGuidesOnMap. *)
Definition RequestGuides_onSuccess (guides : GuidesOnMap) (s : GuidesManager)
  : GuidesManager :=
  if bool_decide (m_state s = Disabled) then s
  else
    let s := set_guides guides s in
    let s := set_errorRequestsCount 0 s in
    let s :=
      match m_guides s with
      | _ :: _ => ChangeState HasData s
      | [] => ChangeState NoData s
      end in
    let s := UpdateGuidesMarks s in
    if m_onGalleryChanged s then notify (GalleryChanged true) s else s.

(** The second lambda passed to GetGuidesOnMap, with its captured
    [requestNumber]. *)
Definition RequestGuides_onFailure (requestNumber : N) (s : GuidesManager)
  : GuidesManager :=
  if bool_decide (m_state s = Disabled)
     || bool_decide (m_state s = FatalNetworkError) then s
  else
    let s := set_errorRequestsCount (m_errorRequestsCount s + 1) s in
    let s :=
      if kRequestAttemptsCount <=? m_errorRequestsCount s then
        ChangeState FatalNetworkError (Clear s)
      else
        ChangeState NetworkError s in
    if requestNumber =? m_requestCounter s then RequestGuides s else s.

Definition UpdateViewport (screen : ScreenBase E) (s : GuidesManager)
  : GuidesManager :=
  let zoom := GetDrawTileScale E screen in
  if bool_decide (m_state s = Disabled)
     || bool_decide (m_state s = FatalNetworkError) then
    set_zoom zoom (set_screen screen s)
  else if IsEmptyInterior E (GlobalRect E screen) then s
  else if
    IsRequestParamsInitialized s
    && (let scaleStronglyChanged :=
          fgt (fdiv (Qabs (GetScale E (m_screen s) - GetScale E screen))
                    (GetScale E (m_screen s))) kScaleEps in
        negb scaleStronglyChanged
        && (let currentCorners := GetGlobalPoints E (GlobalRect E (m_screen s)) in
            let screenCorners := GetGlobalPoints E (GlobalRect E screen) in
            let score :=
              GetIntersectionScoreForPoints E currentCorners screenCorners in
            negb (Qle_bool score (8 # 10))))
  then s
  else RequestGuides (set_zoom zoom (set_screen screen s)).

Definition Invalidate (s : GuidesManager) : GuidesManager := s.

Definition Reconnect (s : GuidesManager) : GuidesManager :=
  if negb (bool_decide (m_state s = FatalNetworkError)) then s
  else RequestGuides (ChangeState Enabled s).

Definition SetEnabled (enabled : bool) (s : GuidesManager) : GuidesManager :=
  let newState := if enabled then Enabled else Disabled in
  if bool_decide (newState = m_state s) then s
  else
    let s := Clear s in
    let s := ChangeState newState s in
    let s := set_shownGuides ∅ s in
    if negb enabled then s else RequestGuides s.

(** The item GetGallery builds for a guide it does not skip. *)
Definition GetGallery_item (s : GuidesManager) (guide : GuidesNode) : Item :=
  let info := m_guideInfo guide in
  let url := url_Join E [BOOKMARKS_CATALOG_FRONT_URL E; GetCurrentNorm E;
                         "v3/mobilefront/route"%string; m_id info] in
  let url := InjectUTM E url UTM_GuidesOnMapGallery in
  let url := InjectUTMTerm E url (to_string (N.of_nat (size (m_shownGuides s)))) in
  if m_sightsCount guide =? 1 then
    mkItem (m_id info) url (m_imageUrl info) (m_name info) City
           (IsGuideDownloaded (m_id info))
           (mkCityParams (m_bookmarksCount info) (m_hasTrack info))
           default_OutdoorParams
  else
    mkItem (m_id info) url (m_imageUrl info) (m_name info) Outdoor
           (IsGuideDownloaded (m_id info))
           default_CityParams
           (mkOutdoorParams (m_tag info) (m_tracksLength info)
                            (m_tourDuration info) (m_ascent info)).

(** The loop body of GetGallery: [items] is gallery.m_items so far. *)
Definition GetGallery_guide (s : GuidesManager) (items : list Item)
  (guide : GuidesNode) : list Item :=
  if negb (addCounts (m_outdoorCount guide) (m_sightsCount guide) =? 1) then items
  else items ++ [GetGallery_item s guide].

Definition GetGallery (s : GuidesManager) : GuidesGallery :=
  mkGallery (fold_left (GetGallery_guide s) (m_guides s) []).

Definition GetActiveGuide (s : GuidesManager) : string := m_activeGuide s.

Definition SetActiveGuide (guideId : string) (s : GuidesManager)
  : GuidesManager :=
  if String.eqb (m_activeGuide s) guideId then s
  else UpdateActiveGuide (set_activeGuide guideId s).

Definition GetShownGuidesCount (s : GuidesManager) : N :=
  N.of_nat (size (m_shownGuides s)).

(** [fn] tells whether the listener passed in is non-null. *)
Definition SetGalleryListener (fn : bool) (s : GuidesManager) : GuidesManager :=
  set_onGalleryChanged fn s.

Definition OnClusterSelected (mark : GuidesClusterMark) (screen : ScreenBase E)
  (s : GuidesManager) : GuidesManager :=
  drape_Scale (mkDrapeScale (2 # 1)%Q (GtoP E screen (cluster_pivot mark)) true) s.

Definition OnGuideSelected (mark : GuideMark) (s : GuidesManager)
  : GuidesManager :=
  let s := set_bmManager (ClearGroup_GUIDE_SELECTION (m_bmManager s)) s in
  let s :=
    set_bmManager
      (CreateSelectionMark (mkSelectionMark (guide_pivot mark)) (m_bmManager s)) s in
  let s := set_activeGuide (guide_id mark) s in
  if m_onGalleryChanged s then notify (GalleryChanged false) s else s.

End Controller.

Arguments mkRequest {E} _ _ _.
Arguments req_rect {E} _.
Arguments req_zoom {E} _.
Arguments req_number {E} _.
Arguments mkGuidesManager {E} _ _ _ _ _ _ _ _ _ _ _ _ _ _ _.
Arguments m_state {E} _.
Arguments m_onStateChanged {E} _.
Arguments m_onGalleryChanged {E} _.
Arguments m_zoom {E} _.
Arguments m_screen {E} _.
Arguments m_requestCounter {E} _.
Arguments m_errorRequestsCount {E} _.
Arguments m_guides {E} _.
Arguments m_activeGuide {E} _.
Arguments m_shownGuides {E} _.
Arguments m_nextMarkIndex {E} _.
Arguments m_bmManager {E} _.
Arguments m_api {E} _.
Arguments notifications {E} _.
Arguments m_drapeEngine {E} _.
Arguments set_state {E} _ _.
Arguments set_onStateChanged {E} _ _.
Arguments set_onGalleryChanged {E} _ _.
Arguments set_zoom {E} _ _.
Arguments set_screen {E} _ _.
Arguments set_requestCounter {E} _ _.
Arguments set_errorRequestsCount {E} _ _.
Arguments set_guides {E} _ _.
Arguments set_activeGuide {E} _ _.
Arguments set_shownGuides {E} _ _.
Arguments set_nextMarkIndex {E} _ _.
Arguments set_bmManager {E} _ _.
Arguments set_api {E} _ _.
Arguments notify {E} _ _.
Arguments drape_Scale {E} _ _.
Arguments GetState {E} _.
Arguments SetStateListener {E} _ _.
Arguments IsEnabled {E} _.
Arguments ChangeState {E} _ _.
Arguments IsRequestParamsInitialized {E} _.
Arguments UpdateActiveGuide {E} _.
Arguments UpdateGuidesMarks_guide {E} _ _.
Arguments UpdateGuidesMarks {E} _ : simpl never.
Arguments Clear {E} _.
Arguments RequestGuides {E} _.
Arguments RequestGuides_onSuccess {E} _ _.
Arguments RequestGuides_onFailure {E} _ _.
Arguments UpdateViewport {E} _ _.
Arguments Invalidate {E} _.
Arguments Reconnect {E} _.
Arguments SetEnabled {E} _ _.
Arguments GetGallery_item {E} _ _.
Arguments GetGallery_guide {E} _ _ _.
Arguments GetGallery {E} _.
Arguments GetActiveGuide {E} _.
Arguments SetActiveGuide {E} _ _.
Arguments GetShownGuidesCount {E} _.
Arguments SetGalleryListener {E} _ _.
Arguments OnClusterSelected {E} _ _ _.
Arguments OnGuideSelected {E} _ _.

(** ** Operation sequences

    What can happen to a controller: a call of one of its public member
    functions that changes it, or the catalog API answering one of the
    unanswered requests. *)

Section Operations.

Context {E : Env}.

Inductive Op : Type :=
| CallSetStateListener (fn : bool)
| CallUpdateViewport (screen : ScreenBase E)
| CallInvalidate
| CallReconnect
| CallSetEnabled (enabled : bool)
| CallSetActiveGuide (guideId : string)
| CallSetGalleryListener (fn : bool)
| CallOnClusterSelected (mark : GuidesClusterMark) (screen : ScreenBase E)
| CallOnGuideSelected (mark : GuideMark)
| ReplySuccess (requestNumber : N) (guides : GuidesOnMap)
| ReplyFailure (requestNumber : N).

(** The API forgets a request once it has answered it. *)
Definition answered (requestNumber : N) (s : GuidesManager E) : GuidesManager E :=
  set_api (List.filter (fun r => negb (req_number r =? requestNumber)) (m_api s)) s.

Definition exec (op : Op) (s : GuidesManager E) : GuidesManager E :=
  match op with
  | CallSetStateListener fn => SetStateListener fn s
  | CallUpdateViewport screen => UpdateViewport screen s
  | CallInvalidate => Invalidate s
  | CallReconnect => Reconnect s
  | CallSetEnabled enabled => SetEnabled enabled s
  | CallSetActiveGuide guideId => SetActiveGuide guideId s
  | CallSetGalleryListener fn => SetGalleryListener fn s
  | CallOnClusterSelected mark screen => OnClusterSelected mark screen s
  | CallOnGuideSelected mark => OnGuideSelected mark s
  | ReplySuccess n guides => RequestGuides_onSuccess guides (answered n s)
  | ReplyFailure n => RequestGuides_onFailure n (answered n s)
  end.

(** A reply can only come for a request that is still unanswered. *)
Definition pending (requestNumber : N) (s : GuidesManager E) : bool :=
  existsb (fun r => req_number r =? requestNumber) (m_api s).

Definition admissible (s : GuidesManager E) (op : Op) : bool :=
  match op with
  | ReplySuccess n _ => pending n s
  | ReplyFailure n => pending n s
  | _ => true
  end.

Inductive reachable : GuidesManager E -> Prop :=
| reachable_init : reachable (init E)
| reachable_exec s op :
    reachable s -> admissible s op = true -> reachable (exec op s).

Definition run (ops : list Op) (s : GuidesManager E) : GuidesManager E :=
  fold_left (fun s op => exec op s) ops s.

(** Every operation of the sequence is admissible where it is executed. *)
Fixpoint admissible_run (ops : list Op) (s : GuidesManager E) : bool :=
  match ops with
  | [] => true
  | op :: ops => admissible s op && admissible_run ops (exec op s)
  end.

End Operations.

Arguments Op : clear implicits.

(** ** A concrete environment

    Screens whose global rectangle is axis-aligned with integer corners. *)

Module Sample.

Record Rect : Type := mkRect { minX : Z; minY : Z; maxX : Z; maxY : Z }.

Record Screen : Type := mkScreen {
  screen_scale : Q;
  screen_rect : Rect;
  screen_tileScale : Z
}.

Definition area (r : Rect) : Z :=
  (Z.max 0 (maxX r - minX r) * Z.max 0 (maxY r - minY r))%Z.

Definition intersect (a b : Rect) : Rect :=
  mkRect (Z.max (minX a) (minX b)) (Z.max (minY a) (minY b))
         (Z.min (maxX a) (maxX b)) (Z.min (maxY a) (maxY b)).

(** Area of the intersection over area of the union. *)
Definition score (a b : Rect) : Q :=
  let i := area (intersect a b) in
  let u := (area a + area b - i)%Z in
  if (u <=? 0)%Z then (0 # 1)%Q else (i # Z.to_pos u)%Q.

Definition isEmptyInterior (r : Rect) : bool :=
  (maxX r <=? minX r)%Z || (maxY r <=? minY r)%Z.

Definition env : Env :=
  mkEnv Screen Rect Rect
        (mkScreen (1 # 10)%Q (mkRect 0 0 640 480) 1)
        screen_scale
        screen_rect
        (fun _ p => p)
        isEmptyInterior
        (fun r => r)
        (fun s => Z.max 1 (screen_tileScale s))
        score
        (fun _ => false)
        "https://catalog.example"%string
        "en"%string
        (fun parts => String.concat "/" parts)
        (fun url _ => (url ++ "?utm_medium=gallery")%string)
        (fun url term => (url ++ "&utm_term=" ++ term)%string)
        32.

(** A viewport over the rectangle [0,1000] x [0,800] at tile scale 10. *)
Definition screenA : ScreenBase env := mkScreen (5 # 1)%Q (mkRect 0 0 1000 800) 10.

(** The same viewport panned by 20 units to the right. *)
Definition screenB : ScreenBase env := mkScreen (5 # 1)%Q (mkRect 20 0 1020 800) 10.

Definition info (id : string) : GuideInfo :=
  mkGuideInfo id "name"%string "image"%string 7 true 3 (12 # 1)%Q 100 "tag"%string.

(** A single city guide, a single outdoor guide, a cluster and a record
    without any guide. *)
Definition cityGuide : GuidesNode := mkGuidesNode (info "city") (1 # 1, 2 # 1)%Q 1 0.
Definition outdoorGuide : GuidesNode := mkGuidesNode (info "outdoor") (3 # 1, 4 # 1)%Q 0 1.
Definition clusterGuide : GuidesNode := mkGuidesNode (info "cluster") (5 # 1, 6 # 1)%Q 2 0.
Definition emptyGuide : GuidesNode := mkGuidesNode (info "empty") (7 # 1, 8 # 1)%Q 0 0.

(** The feature is switched on over [screenA]; the first request is made. *)
Definition enable : list (Op env) :=
  [@CallUpdateViewport env screenA; CallSetStateListener true;
   CallSetGalleryListener true; CallSetEnabled true].

(** A viewport far away from [screenA]. *)
Definition screenC : ScreenBase env :=
  mkScreen (5 # 1)%Q (mkRect 5000 5000 6000 5800) 10.

(** ... the viewport moves far away, which sends request 2 while request 1
    is unanswered, and request 2 and its two retries fail. *)
Definition overtaken : list (Op env) :=
  enable ++ [CallUpdateViewport screenC;
             ReplyFailure 2; ReplyFailure 3; ReplyFailure 4].

(** ... and the first request is answered with two singles, a cluster and
    a record without any guide. *)
Definition displayed : list (Op env) :=
  enable ++ [ReplySuccess 1 [cityGuide; clusterGuide; emptyGuide; outdoorGuide]].

(** ... and the request and its two retries fail. *)
Definition three_failures : list (Op env) :=
  enable ++ [ReplyFailure 1; ReplyFailure 2; ReplyFailure 3].

End Sample.

(** ** How the claims read on the model *)

Section Readings.

Context {E : Env}.

(** A reply was discarded: neither the guide list, the marks, the two
    counters and the state changed, nor was a listener called. *)
Definition reply_discarded (s s' : GuidesManager E) : Prop :=
  m_guides s' = m_guides s
  /\ m_bmManager s' = m_bmManager s
  /\ m_requestCounter s' = m_requestCounter s
  /\ m_errorRequestsCount s' = m_errorRequestsCount s
  /\ m_state s' = m_state s
  /\ notifications s' = notifications s.

Definition is_reply (op : Op E) : bool :=
  match op with
  | ReplySuccess _ _ | ReplyFailure _ => true
  | _ => false
  end.

Definition is_failure (op : Op E) : bool :=
  match op with
  | ReplyFailure _ => true
  | _ => false
  end.

(** Going from [s] to [s'] sent one more query to the catalog. *)
Definition dispatched (s s' : GuidesManager E) : Prop :=
  exists r, m_api s' = m_api s ++ [r].

(** The shown-guides set does not lose an element at any step of [ops],
    run from [s]. *)
Fixpoint shown_never_shrinks (ops : list (Op E)) (s : GuidesManager E) : Prop :=
  match ops with
  | [] => True
  | op :: ops =>
      m_shownGuides s ⊆ m_shownGuides (exec op s)
      /\ shown_never_shrinks ops (exec op s)
  end.

(** SetEnabled(false) is not among [ops]. *)
Definition is_disable (op : Op E) : bool :=
  match op with
  | CallSetEnabled false => true
  | _ => false
  end.

Definition never_disables (ops : list (Op E)) : bool :=
  forallb (fun op => negb (is_disable op)) ops.

(** SetEnabled(true) is only called, along [ops] run from [s], where the
    state is Enabled or Disabled. *)
Definition is_enable (op : Op E) : bool :=
  match op with
  | CallSetEnabled true => true
  | _ => false
  end.

Fixpoint enable_only_when_fresh (ops : list (Op E)) (s : GuidesManager E) : bool :=
  match ops with
  | [] => true
  | op :: ops =>
      (negb (is_enable op)
       || bool_decide (m_state s = Enabled)
       || bool_decide (m_state s = Disabled))
      && enable_only_when_fresh ops (exec op s)
  end.

(** The spec's words: a record is a cluster when the combined count exceeds
    one, a single otherwise. *)
Definition is_cluster (guide : GuidesNode) : bool :=
  1 <? m_sightsCount guide + m_outdoorCount guide.

Definition is_single (guide : GuidesNode) : bool := negb (is_cluster guide).

(** The record stands for exactly one guide. *)
Definition is_one_guide (guide : GuidesNode) : bool :=
  m_outdoorCount guide + m_sightsCount guide =? 1.

(** What the mark projection leaves alone. *)
Definition core (s : GuidesManager E) :=
  (m_state s, m_onStateChanged s, m_onGalleryChanged s, m_zoom s, m_screen s,
   m_requestCounter s, m_errorRequestsCount s, m_guides s, m_api s,
   notifications s, m_drapeEngine s).

(** The state tells whether there are guides. *)
Definition emptiness (s : GuidesManager E) : Prop :=
  (m_state s = HasData -> m_guides s <> [])
  /\ (m_state s = NoData -> m_guides s = []).

(** Entering FatalNetworkError goes through Clear, which resets the error
    counter. *)
Definition fatal_reset (s : GuidesManager E) : Prop :=
  m_state s = FatalNetworkError -> m_errorRequestsCount s = 0.

(** While the feature is off no guide counts as shown. *)
Definition off_hides (s : GuidesManager E) : Prop :=
  m_state s = Disabled -> m_shownGuides s = ∅.

(** Either the request parameters are initialised, or nothing has been
    requested yet. *)
Definition requests_possible (s : GuidesManager E) : Prop :=
  IsRequestParamsInitialized s = true
  \/ (m_api s = [] /\ (m_state s = Disabled \/ m_state s = Enabled)).

End Readings.

(** ** Further readings of the controller state *)

(** DebugPrint(GuidesManager::GuidesState) *)
Definition DebugPrint (state : GuidesState) : string :=
  match state with
  | Disabled => "Disabled"
  | Enabled => "Enabled"
  | HasData => "HasData"
  | NoData => "NoData"
  | NetworkError => "NetworkError"
  | FatalNetworkError => "FatalNetworkError"
  end.

(** What a cluster mark shows, apart from its index. *)
Definition cluster_view (mark : GuidesClusterMark) : PointD * N * N :=
  (cluster_pivot mark, cluster_sights mark, cluster_outdoor mark).

(** Where a single-guide mark is, of what kind, and for which guide. *)
Definition guide_view (mark : GuideMark) : PointD * GuideMarkType * string :=
  (guide_pivot mark, guide_type mark, guide_id mark).

(** The indices of the cluster marks and of the single-guide marks. *)
Definition mark_indices (bm : BookmarkManager) : list N :=
  map cluster_index (group_GUIDE_CLUSTER bm) ++ map guide_index (group_GUIDE bm).

(** The state the state listener was told last, if it was told any. *)
Definition last_told (log : list Notification) : option GuidesState :=
  fold_left (fun told n =>
               match n with
               | StateChanged st => Some st
               | GalleryChanged _ => told
               end) log None.

Arguments last_told _ : simpl never.

(** The kind of mark that goes with a kind of gallery item. *)
Definition mark_type_of (type : ItemType) : GuideMarkType :=
  match type with
  | City => MarkCity
  | Outdoor => MarkOutdoor
  end.

Section Projections.

Context {E : Env}.

(** The tests of the code on a guide record: the one of UpdateGuidesMarks
    that gives it a cluster mark, its negation, and the one of GetGallery
    that gives it an item. *)
Definition gets_cluster_mark (guide : GuidesNode) : bool :=
  1 <? addCounts E (m_sightsCount guide) (m_outdoorCount guide).

Definition gets_guide_mark (guide : GuidesNode) : bool :=
  negb (gets_cluster_mark guide).

Definition gets_item (guide : GuidesNode) : bool :=
  addCounts E (m_outdoorCount guide) (m_sightsCount guide) =? 1.

(** The combined count of the record fits the type of the counts. *)
Definition counts_fit (guide : GuidesNode) : bool :=
  m_sightsCount guide + m_outdoorCount guide <? 2 ^ countBits E.

(** What UpdateGuidesMarks puts on the map for a cluster and for a single. *)
Definition cluster_shown (guide : GuidesNode) : PointD * N * N :=
  (m_point guide, m_sightsCount guide, m_outdoorCount guide).

Definition guide_shown (guide : GuidesNode) : PointD * GuideMarkType * string :=
  (m_point guide,
   if 0 <? m_sightsCount guide then MarkCity else MarkOutdoor,
   m_id (m_guideInfo guide)).

Definition guide_ids (guides : GuidesOnMap) : list string :=
  map (fun guide => m_id (m_guideInfo guide)) guides.

(** The marks of the map are those of the guide list. *)
Definition marks_mirror_guides (s : GuidesManager E) : Prop :=
  map cluster_view (group_GUIDE_CLUSTER (m_bmManager s))
  = map cluster_shown (List.filter gets_cluster_mark (m_guides s))
  /\ map guide_view (group_GUIDE (m_bmManager s))
     = map guide_shown (List.filter gets_guide_mark (m_guides s)).

(** Mark indices are distinct, positive and not above the last one given. *)
Definition indices_fresh (s : GuidesManager E) : Prop :=
  NoDup (mark_indices (m_bmManager s))
  /\ Forall (fun i => 1 <= i <= m_nextMarkIndex s) (mark_indices (m_bmManager s)).

(** Request numbers of the unanswered requests increase along the queue and
    stay within the request counter. *)
Fixpoint numbered_from (low : N) (requests : list (Request E)) : Prop :=
  match requests with
  | [] => True
  | r :: requests => low < req_number r /\ numbered_from (req_number r) requests
  end.

Definition requests_numbered (s : GuidesManager E) : Prop :=
  numbered_from 0 (m_api s)
  /\ Forall (fun r => req_number r <= m_requestCounter s) (m_api s).

(** The error counter is 0 outside NetworkError, and 1 or 2 inside. *)
Definition errors_counted (s : GuidesManager E) : Prop :=
  (m_state s = NetworkError /\ (m_errorRequestsCount s = 1 \/ m_errorRequestsCount s = 2))
  \/ (m_state s <> NetworkError /\ m_errorRequestsCount s = 0).

(** A registered state listener has been told the current state. *)
Definition listener_up_to_date (s : GuidesManager E) : Prop :=
  m_onStateChanged s = true -> last_told (notifications s) = Some (m_state s).

(** Every single of the guide list counts as shown. *)
Definition singles_shown (s : GuidesManager E) : Prop :=
  forall guide, In guide (m_guides s) -> is_single guide = true ->
                m_id (m_guideInfo guide) ∈ m_shownGuides s.

(** What the mark projection reads and writes. *)
Definition marks_part (s : GuidesManager E) :=
  (m_guides s, m_activeGuide s, m_shownGuides s, m_nextMarkIndex s, m_bmManager s).

(** Marks, indices, shown guides and selection are as the guide list has
    them. *)
Definition map_in_sync (s : GuidesManager E) : Prop :=
  marks_mirror_guides s /\ indices_fresh s /\ singles_shown s
  /\ (length (group_GUIDE_SELECTION (m_bmManager s)) <= 1)%nat.

(** The controller when a success reply reaches the mark projection. *)
Definition onSuccess_stored (guides : GuidesOnMap) (s : GuidesManager E)
  : GuidesManager E :=
  let s := set_errorRequestsCount 0 (set_guides guides s) in
  match guides with
  | _ :: _ => ChangeState HasData s
  | [] => ChangeState NoData s
  end.

End Projections.

Arguments gets_cluster_mark : clear implicits.
Arguments gets_guide_mark : clear implicits.
Arguments gets_item : clear implicits.
Arguments counts_fit : clear implicits.

(** ** Basic facts about the member functions *)

Section Facts.

Context {E : Env}.

Implicit Types (s : GuidesManager E) (op : Op E).

Lemma ChangeState_eq newState s :
  ChangeState newState s =
  if bool_decide (m_state s = newState) then s
  else if m_onStateChanged s
       then notify (StateChanged newState) (set_state newState s)
       else set_state newState s.
Proof. reflexivity. Qed.

Lemma UpdateActiveGuide_core s : core (UpdateActiveGuide s) = core s.
Proof. unfold UpdateActiveGuide. cbn. case_match; reflexivity. Qed.

Lemma UpdateActiveGuide_shown s :
  m_shownGuides (UpdateActiveGuide s) = m_shownGuides s.
Proof. unfold UpdateActiveGuide. cbn. case_match; reflexivity. Qed.

Lemma UpdateGuidesMarks_guide_core s guide :
  core (UpdateGuidesMarks_guide s guide) = core s.
Proof. unfold UpdateGuidesMarks_guide. case_match; reflexivity. Qed.

Lemma UpdateGuidesMarks_guide_shown s guide :
  m_shownGuides s ⊆ m_shownGuides (UpdateGuidesMarks_guide s guide).
Proof. unfold UpdateGuidesMarks_guide. case_match; cbn; set_solver. Qed.

Lemma UpdateGuidesMarks_loop_core guides s :
  core (fold_left UpdateGuidesMarks_guide guides s) = core s.
Proof.
  revert s. induction guides as [|guide guides IH]; intros s; [reflexivity|].
  cbn [fold_left]. rewrite IH. apply UpdateGuidesMarks_guide_core.
Qed.

Lemma UpdateGuidesMarks_loop_shown guides s :
  m_shownGuides s ⊆ m_shownGuides (fold_left UpdateGuidesMarks_guide guides s).
Proof.
  revert s. induction guides as [|guide guides IH]; intros s; [reflexivity|].
  cbn [fold_left]. etransitivity; [|apply IH].
  apply UpdateGuidesMarks_guide_shown.
Qed.

Lemma UpdateGuidesMarks_core s : core (UpdateGuidesMarks s) = core s.
Proof.
  unfold UpdateGuidesMarks. rewrite UpdateActiveGuide_core.
  rewrite UpdateGuidesMarks_loop_core. reflexivity.
Qed.

Lemma UpdateGuidesMarks_shown s :
  m_shownGuides s ⊆ m_shownGuides (UpdateGuidesMarks s).
Proof.
  unfold UpdateGuidesMarks. rewrite UpdateActiveGuide_shown.
  etransitivity; [|apply UpdateGuidesMarks_loop_shown]. reflexivity.
Qed.

(** The mark projection written as an assignment to the four members it
    may change. *)
Lemma UpdateGuidesMarks_eq s :
  exists activeGuide shown index bm,
    m_shownGuides s ⊆ shown
    /\ UpdateGuidesMarks s =
       mkGuidesManager (m_state s) (m_onStateChanged s) (m_onGalleryChanged s)
         (m_zoom s) (m_screen s) (m_requestCounter s) (m_errorRequestsCount s)
         (m_guides s) activeGuide shown index bm (m_api s) (notifications s)
         (m_drapeEngine s).
Proof.
  pose proof (UpdateGuidesMarks_core s) as Hc.
  pose proof (UpdateGuidesMarks_shown s) as Hs.
  destruct (UpdateGuidesMarks s) as [a b c d e f g h i j k l m n o].
  unfold core in Hc. cbn in Hc, Hs. simplify_eq.
  exists i, j, k, l. split; [exact Hs|reflexivity].
Qed.

(** Clear leaves no guide, no mark and no active guide. *)
Lemma Clear_eq s :
  Clear s =
  mkGuidesManager (m_state s) (m_onStateChanged s) (m_onGalleryChanged s)
    (m_zoom s) (m_screen s) (m_requestCounter s) 0 [] EmptyString
    (m_shownGuides s) (m_nextMarkIndex s) (mkBookmarkManager [] [] [])
    (m_api s) (notifications s) (m_drapeEngine s).
Proof. reflexivity. Qed.

Lemma RequestGuides_eq s :
  RequestGuides s =
  if IsRequestParamsInitialized s then
    set_api (m_api s ++ [mkRequest (GlobalRect E (m_screen s)) (m_zoom s)
                                   (m_requestCounter s + 1)])
            (set_requestCounter (m_requestCounter s + 1) s)
  else s.
Proof. unfold RequestGuides. destruct (IsRequestParamsInitialized s); reflexivity. Qed.

Lemma run_reachable ops s :
  reachable s -> admissible_run ops s = true -> reachable (run ops s).
Proof.
  revert s. induction ops as [|op ops IH]; intros s Hs Hok; [exact Hs|].
  cbn in Hok. apply andb_prop in Hok as [Hop Hok].
  cbn. apply IH; [|exact Hok]. by apply reachable_exec.
Qed.

Lemma onSuccess_Disabled guides s :
  m_state s = Disabled -> RequestGuides_onSuccess guides s = s.
Proof.
  intros Hst. unfold RequestGuides_onSuccess.
  rewrite bool_decide_true by exact Hst. reflexivity.
Qed.

Lemma onFailure_off requestNumber s :
  m_state s = Disabled \/ m_state s = FatalNetworkError ->
  RequestGuides_onFailure requestNumber s = s.
Proof.
  intros Hst. unfold RequestGuides_onFailure.
  destruct Hst as [Hst|Hst]; rewrite Hst; reflexivity.
Qed.

(** Any property kept by every admissible operation holds in every
    reachable state. *)
Lemma reachable_ind_inv (P : GuidesManager E -> Prop) :
  P (init E) ->
  (forall s op, reachable s -> P s -> admissible s op = true -> P (exec op s)) ->
  forall s, reachable s -> P s.
Proof.
  intros Hinit Hstep s Hs. induction Hs as [|s op Hs IH Hop]; [exact Hinit|].
  by apply Hstep.
Qed.

(** A success reply that is not discarded, written as an assignment. *)
Lemma onSuccess_eq guides s :
  m_state s <> Disabled ->
  exists activeGuide shown index bm,
    m_shownGuides s ⊆ shown
    /\ RequestGuides_onSuccess guides s =
       let st := match guides with _ :: _ => HasData | [] => NoData end in
       mkGuidesManager st (m_onStateChanged s) (m_onGalleryChanged s)
         (m_zoom s) (m_screen s) (m_requestCounter s) 0 guides activeGuide
         shown index bm (m_api s)
         (notifications s
          ++ (if bool_decide (m_state s = st) then []
              else if m_onStateChanged s then [StateChanged st] else [])
          ++ (if m_onGalleryChanged s then [GalleryChanged true] else []))
         (m_drapeEngine s).
Proof.
  intros Hst. unfold RequestGuides_onSuccess.
  rewrite bool_decide_false by exact Hst.
  destruct s as [st f1 f2 z scr rc ec gs ag sh idx bm api ns de]; cbn in Hst.
  destruct guides as [|guide guides]; cbn; rewrite ChangeState_eq; cbn;
    case_bool_decide as Heq; subst; destruct f1; cbn;
    match goal with
    | |- context [UpdateGuidesMarks ?x] =>
        destruct (UpdateGuidesMarks_eq x) as (ag' & sh' & idx' & bm' & Hsub & ->)
    end;
    exists ag', sh', idx', bm'; (split; [exact Hsub|]);
    destruct f2; unfold notify; cbn; rewrite ?app_nil_r, <- ?app_assoc; reflexivity.
Qed.

(** A failure reply that is not discarded. *)
Lemma onFailure_eq requestNumber s :
  m_state s <> Disabled -> m_state s <> FatalNetworkError ->
  RequestGuides_onFailure requestNumber s =
  let s1 :=
    if kRequestAttemptsCount <=? m_errorRequestsCount s + 1 then
      ChangeState FatalNetworkError
        (Clear (set_errorRequestsCount (m_errorRequestsCount s + 1) s))
    else
      ChangeState NetworkError
        (set_errorRequestsCount (m_errorRequestsCount s + 1) s) in
  if requestNumber =? m_requestCounter s then RequestGuides s1 else s1.
Proof.
  intros Hd Hf. unfold RequestGuides_onFailure.
  rewrite !bool_decide_false by assumption. cbn [orb].
  cbn zeta.
  replace (m_errorRequestsCount
             (set_errorRequestsCount (m_errorRequestsCount s + 1) s))
    with (m_errorRequestsCount s + 1) by reflexivity.
  destruct (kRequestAttemptsCount <=? m_errorRequestsCount s + 1).
  - rewrite Clear_eq, ChangeState_eq. cbn.
    rewrite bool_decide_false by assumption.
    destruct (m_onStateChanged s); reflexivity.
  - rewrite ChangeState_eq. cbn. case_bool_decide; [reflexivity|].
    destruct (m_onStateChanged s); reflexivity.
Qed.

End Facts.

(** Case analysis on a call other than a reply. *)
Ltac call_cases :=
  unfold SetStateListener, UpdateViewport, Invalidate, Reconnect, SetEnabled,
    SetActiveGuide, SetGalleryListener, OnClusterSelected, OnGuideSelected,
    UpdateActiveGuide;
  rewrite ?Clear_eq;
  repeat (rewrite ?ChangeState_eq, ?RequestGuides_eq; cbn;
          first [case_bool_decide | case_match]);
  cbn in *.

(** Case analysis on a reply. *)
Ltac reply_cases s :=
  let Hd := fresh "Hd" in
  let Hf := fresh "Hf" in
  destruct (decide (m_state s = Disabled)) as [Hd|Hd];
  [ rewrite ?onSuccess_Disabled, ?onFailure_off by (cbn; auto)
  | first
      [ match goal with
        | |- context [RequestGuides_onSuccess ?g ?x] =>
            let ag := fresh "ag" in
            let sh := fresh "sh" in
            let idx := fresh "idx" in
            let bm := fresh "bm" in
            let Hsub := fresh "Hsub" in
            destruct (onSuccess_eq g x Hd) as (ag & sh & idx & bm & Hsub & ->)
        end
      | destruct (decide (m_state s = FatalNetworkError)) as [Hf|Hf];
        [ rewrite onFailure_off by (cbn; auto)
        | rewrite onFailure_eq by (cbn; auto); cbn zeta; rewrite ?Clear_eq;
          repeat (rewrite ?ChangeState_eq, ?RequestGuides_eq; cbn;
                  first [case_bool_decide | case_match]) ] ] ];
  cbn in *.

(** Turn the tests of the retry budget into inequalities. *)
Ltac budget_arith :=
  repeat match goal with
         | H : (_ <=? _) = true |- _ => apply N.leb_le in H
         | H : (_ <=? _) = false |- _ => apply N.leb_gt in H
         end;
  unfold kRequestAttemptsCount in *.

(** ** Reply callbacks in the states Disabled and FatalNetworkError *)

Section Replies.

Context {E : Env}.

Implicit Types (s : GuidesManager E) (op : Op E).

(** C1, as amended.  A reply delivered while the state is Disabled is
    discarded, whether it is a success or a failure, and so is a failure
    delivered while the state is FatalNetworkError: the guide list, the
    marks, the request and error counters and the state stay as they were
    and no listener is called. *)
Theorem reply_discarded_when_off s op :
  is_reply op = true ->
  m_state s = Disabled
  \/ (m_state s = FatalNetworkError /\ is_failure op = true) ->
  reply_discarded s (exec op s).
Proof.
  intros Hop Hst.
  destruct op as [| | | | | | | | |n guides|n]; try discriminate Hop; cbn [exec].
  - destruct Hst as [Hst|[_ Hf]]; [|discriminate Hf].
    rewrite onSuccess_Disabled by exact Hst. repeat split.
  - rewrite onFailure_off; [repeat split|].
    destruct Hst as [Hst|[Hst _]]; [left|right]; exact Hst.
Qed.

End Replies.

(** The same holds for every reply in the sample: the feature is switched
    off while the first request is unanswered, then the request fails. *)
Lemma reply_discarded_when_off_witness :
  let s := run (Sample.enable ++ [CallSetEnabled false]) (init Sample.env) in
  m_state s = Disabled /\ reply_discarded s (exec (ReplyFailure 1) s).
Proof.
  split; [vm_compute; reflexivity|].
  apply (@reply_discarded_when_off Sample.env); [reflexivity|].
  left. vm_compute. reflexivity.
Defined.

(** C1, as stated, fails: request 1 is still unanswered when request 2 and
    its retries have failed and the state is FatalNetworkError; the success
    reply to request 1 then stores its guides. *)
Lemma success_in_fatal_not_discarded :
  ~ (forall (s : GuidesManager Sample.env) (op : Op Sample.env),
        reachable s -> admissible s op = true -> is_reply op = true ->
        m_state s = Disabled \/ m_state s = FatalNetworkError ->
        reply_discarded s (exec op s)).
Proof.
  intros H.
  specialize (H (run Sample.overtaken (init Sample.env))
                (ReplySuccess 1 [Sample.cityGuide])).
  destruct H as (Hguides & _).
  - apply run_reachable; [apply reachable_init|vm_compute; reflexivity].
  - vm_compute. reflexivity.
  - reflexivity.
  - right. vm_compute. reflexivity.
  - vm_compute in Hguides. discriminate Hguides.
Qed.

(** ** Invariants of the reachable states *)

Section Invariants.

Context {E : Env}.

Implicit Types (s : GuidesManager E) (op : Op E).

Lemma emptiness_exec s op : emptiness s -> emptiness (exec op s).
Proof.
  intros [Hh Hn].
  destruct op as [fn|screen| | |enabled|guideId|fn|mark screen|mark|n guides|n];
    cbn [exec].
  1-9: by (call_cases; split; intros; cbn in *; try congruence; auto).
  - reply_cases s; [split; assumption|].
    destruct guides; split; intros; cbn in *; congruence.
  - reply_cases s; split; intros; cbn in *; try congruence; auto.
Qed.

Lemma fatal_reset_exec s op : fatal_reset s -> fatal_reset (exec op s).
Proof.
  unfold fatal_reset. intros Hs.
  destruct op as [fn|screen| | |enabled|guideId|fn|mark screen|mark|n guides|n];
    cbn [exec].
  1-9: by (call_cases; intros; cbn in *; try congruence; auto).
  - reply_cases s; [assumption|]. reflexivity.
  - reply_cases s; intros; cbn in *; try congruence; auto.
Qed.

Lemma off_hides_exec s op : off_hides s -> off_hides (exec op s).
Proof.
  unfold off_hides. intros Hs.
  destruct op as [fn|screen| | |enabled|guideId|fn|mark screen|mark|n guides|n];
    cbn [exec].
  1-9: by (call_cases; intros; cbn in *; try congruence; auto).
  - reply_cases s; [assumption|]. destruct guides; cbn; congruence.
  - reply_cases s; intros; cbn in *; try congruence; auto.
Qed.

Lemma disabled_shows_nothing s :
  reachable s -> m_state s = Disabled -> m_shownGuides s = ∅.
Proof.
  revert s. apply (reachable_ind_inv off_hides).
  - intros _. reflexivity.
  - intros s op _ Hs _. by apply off_hides_exec.
Qed.

(** One operation that is neither SetEnabled(false) nor a SetEnabled(true)
    that restarts the feature keeps every shown guide. *)
Lemma shown_exec s op :
  (m_state s = Disabled -> m_shownGuides s = ∅) ->
  op <> CallSetEnabled false ->
  (op = CallSetEnabled true -> m_state s = Enabled \/ m_state s = Disabled) ->
  m_shownGuides s ⊆ m_shownGuides (exec op s).
Proof.
  intros Hoff Hno Hfresh.
  destruct op as [fn|screen| | |enabled|guideId|fn|mark screen|mark|n guides|n];
    cbn [exec].
  5: { destruct enabled; [|done]. destruct (Hfresh eq_refl) as [Hst|Hst].
       - unfold SetEnabled. rewrite Hst. reflexivity.
       - rewrite (Hoff Hst). set_solver. }
  1-8: by (call_cases; intros; cbn in *; try congruence; auto).
  - reply_cases s; [reflexivity|]. exact Hsub.
  - reply_cases s; intros; cbn in *; try congruence; auto.
Qed.

Lemma shown_never_shrinks_from ops s :
  reachable s ->
  admissible_run ops s = true ->
  never_disables ops = true ->
  enable_only_when_fresh ops s = true ->
  shown_never_shrinks ops s.
Proof.
  revert s. induction ops as [|op ops IH]; intros s Hs Hadm Hno Hfresh;
    [exact I|].
  cbn in Hadm, Hno, Hfresh.
  apply andb_prop in Hadm as [Hop Hadm].
  apply andb_prop in Hno as [Hno1 Hno].
  apply andb_prop in Hfresh as [Hfresh1 Hfresh].
  cbn. split.
  - apply shown_exec; [by apply disabled_shows_nothing| |].
    + intros ->. discriminate Hno1.
    + intros ->. cbn in Hfresh1.
      apply orb_prop in Hfresh1 as [Hst|Hst];
        apply bool_decide_eq_true_1 in Hst; auto.
  - apply IH; [by apply reachable_exec|exact Hadm|exact Hno|exact Hfresh].
Qed.

Lemma shown_never_shrinks_app ops1 ops2 s :
  shown_never_shrinks (ops1 ++ ops2) s -> shown_never_shrinks ops2 (run ops1 s).
Proof.
  revert s. induction ops1 as [|op ops1 IH]; intros s H; [exact H|].
  destruct H as [_ H]. apply (IH _ H).
Qed.

(** C9.  In every reachable state, HasData comes with a non-empty guide
    list and NoData with an empty one. *)
Theorem state_matches_emptiness s :
  reachable s ->
  (m_state s = HasData -> m_guides s <> [])
  /\ (m_state s = NoData -> m_guides s = []).
Proof.
  revert s. apply (reachable_ind_inv emptiness).
  - split; intros; [discriminate|reflexivity].
  - intros s op _ Hs _. by apply emptiness_exec.
Qed.

(** C3, as amended.  In every reachable state, if the state is
    FatalNetworkError then the error counter is 0: the counter reaches the
    retry budget in the failure that enters the state, and Clear resets it
    before the state changes. *)
Theorem fatal_counter_is_reset s :
  reachable s -> m_state s = FatalNetworkError -> m_errorRequestsCount s = 0.
Proof.
  revert s. apply (reachable_ind_inv fatal_reset).
  - intros Hst. discriminate Hst.
  - intros s op _ Hs _. by apply fatal_reset_exec.
Qed.

(** C5, as amended.  Along every operation sequence that never calls
    SetEnabled(false), and calls SetEnabled(true) only where the state is
    Enabled or Disabled, the shown-guides set after an operation contains
    the set before it. *)
Theorem shown_guides_never_shrink ops :
  admissible_run ops (init E) = true ->
  never_disables ops = true ->
  enable_only_when_fresh ops (init E) = true ->
  shown_never_shrinks ops (init E).
Proof. apply shown_never_shrinks_from, reachable_init. Qed.

End Invariants.

(** HasData with one guide, after the first request of the sample is
    answered. *)
Lemma state_matches_emptiness_witness :
  let s := run (Sample.enable ++ [ReplySuccess 1 [Sample.cityGuide]])
               (init Sample.env) in
  m_state s = HasData /\ m_guides s <> [].
Proof.
  split; [vm_compute; reflexivity|].
  apply (@state_matches_emptiness Sample.env).
  - apply run_reachable; [apply reachable_init|vm_compute; reflexivity].
  - vm_compute. reflexivity.
Defined.

Lemma fatal_counter_is_reset_witness :
  m_errorRequestsCount (run Sample.three_failures (init Sample.env)) = 0.
Proof.
  apply (@fatal_counter_is_reset Sample.env).
  - apply run_reachable; [apply reachable_init|vm_compute; reflexivity].
  - vm_compute. reflexivity.
Defined.

(** C3, as stated, fails: after the three failures of the sample the state
    is FatalNetworkError and the error counter is below the retry budget. *)
Lemma fatal_counter_below_budget :
  ~ (forall s : GuidesManager Sample.env,
        reachable s -> m_state s = FatalNetworkError ->
        kRequestAttemptsCount <= m_errorRequestsCount s).
Proof.
  intros H.
  specialize (H (run Sample.three_failures (init Sample.env))).
  assert (kRequestAttemptsCount
          <= m_errorRequestsCount (run Sample.three_failures (init Sample.env)))
    as Hle.
  { apply H.
    - apply run_reachable; [apply reachable_init|vm_compute; reflexivity].
    - vm_compute. reflexivity. }
  vm_compute in Hle. apply Hle. reflexivity.
Qed.

(** Guides shown after a reply stay shown while a guide is selected and the
    viewport moves. *)
Lemma shown_guides_never_shrink_witness :
  shown_never_shrinks
    (Sample.enable
     ++ [ReplySuccess 1 [Sample.cityGuide; Sample.clusterGuide];
         CallSetActiveGuide "city"; CallUpdateViewport Sample.screenB])
    (init Sample.env).
Proof.
  apply (@shown_guides_never_shrink Sample.env); vm_compute; reflexivity.
Defined.

(** C5, as stated, fails: SetEnabled(true) called in the state HasData
    empties the shown-guides set, and SetEnabled(false) was never called. *)
Lemma enable_again_forgets_shown :
  ~ (forall ops : list (Op Sample.env),
        admissible_run ops (init Sample.env) = true ->
        never_disables ops = true ->
        shown_never_shrinks ops (init Sample.env)).
Proof.
  intros H.
  specialize (H ((Sample.enable ++ [ReplySuccess 1 [Sample.cityGuide]])
                 ++ [CallSetEnabled true])).
  apply shown_never_shrinks_app in H; [|vm_compute; reflexivity..].
  destruct H as [Hsub _].
  assert (bool_decide
            ("city"%string
             ∈ m_shownGuides
                 (run (Sample.enable ++ [ReplySuccess 1 [Sample.cityGuide]])
                      (init Sample.env))) = true) as Hin
    by (vm_compute; reflexivity).
  apply bool_decide_eq_true_1 in Hin. apply Hsub in Hin.
  assert (m_shownGuides
            (exec (CallSetEnabled true)
               (run (Sample.enable ++ [ReplySuccess 1 [Sample.cityGuide]])
                    (init Sample.env))) = ∅) as Hempty
    by (vm_compute; reflexivity).
  rewrite Hempty in Hin. set_solver.
Qed.

(** ** The retry budget *)

Section Retry.

Context {E : Env}.

Implicit Types (s : GuidesManager E) (op : Op E).

(** One failure reply that is not discarded counts, and on reaching the
    budget makes the error fatal. *)
Lemma failure_counted n s :
  m_state s <> Disabled -> m_state s <> FatalNetworkError ->
  let s' := exec (ReplyFailure n) s in
  if kRequestAttemptsCount <=? m_errorRequestsCount s + 1
  then m_state s' = FatalNetworkError
  else m_state s' = NetworkError
       /\ m_errorRequestsCount s' = m_errorRequestsCount s + 1.
Proof.
  intros Hd Hf. cbn [exec]. cbn zeta.
  rewrite onFailure_eq by (cbn; assumption). cbn zeta.
  replace (m_errorRequestsCount (answered n s)) with (m_errorRequestsCount s)
    by reflexivity.
  destruct (kRequestAttemptsCount <=? m_errorRequestsCount s + 1).
  - rewrite Clear_eq.
    repeat (rewrite ?ChangeState_eq, ?RequestGuides_eq; cbn;
            first [case_bool_decide | case_match]); cbn; congruence.
  - repeat (rewrite ?ChangeState_eq, ?RequestGuides_eq; cbn;
            first [case_bool_decide | case_match]); cbn; split; congruence.
Qed.

Lemma failures_in_fatal ns s :
  m_state s = FatalNetworkError ->
  m_state (run (map ReplyFailure ns) s) = FatalNetworkError.
Proof.
  revert s. induction ns as [|n ns IH]; intros s Hst; [exact Hst|].
  cbn. apply IH. rewrite onFailure_off by (right; exact Hst). exact Hst.
Qed.

Lemma failure_below_budget n s :
  m_state s <> Disabled -> m_state s <> FatalNetworkError ->
  m_errorRequestsCount s + 1 < kRequestAttemptsCount ->
  m_state (exec (ReplyFailure n) s) = NetworkError
  /\ m_errorRequestsCount (exec (ReplyFailure n) s) = m_errorRequestsCount s + 1.
Proof.
  intros Hd Hf Hlt. pose proof (failure_counted n s Hd Hf) as H.
  cbn zeta in H. apply N.leb_gt in Hlt. rewrite Hlt in H. exact H.
Qed.

Lemma failure_exhausts_budget n s :
  m_state s <> Disabled -> m_state s <> FatalNetworkError ->
  kRequestAttemptsCount <= m_errorRequestsCount s + 1 ->
  m_state (exec (ReplyFailure n) s) = FatalNetworkError.
Proof.
  intros Hd Hf Hle. pose proof (failure_counted n s Hd Hf) as H.
  cbn zeta in H. apply N.leb_le in Hle. rewrite Hle in H. exact H.
Qed.

(** C7.  From a state that is neither Disabled nor FatalNetworkError and in
    which no failure has been counted since the last success (the error
    counter is 0), k failure replies in a row leave the state NetworkError
    for k = 1 and k = 2, and FatalNetworkError for every k >= 3. *)
Theorem retry_budget s (ns : list N) :
  m_state s <> Disabled -> m_state s <> FatalNetworkError ->
  m_errorRequestsCount s = 0 ->
  let s' := run (map ReplyFailure ns) s in
  (length ns = 1%nat \/ length ns = 2%nat -> m_state s' = NetworkError)
  /\ (3 <= length ns -> m_state s' = FatalNetworkError)%nat.
Proof.
  intros Hd Hf He s'. subst s'.
  destruct ns as [|n1 ns].
  { split; [intros [?|?]; discriminate|cbn [length]; lia]. }
  destruct (failure_below_budget n1 s Hd Hf) as [Hs1 He1];
    [rewrite He; reflexivity|].
  change (run (map ReplyFailure (n1 :: ns)) s)
    with (run (map ReplyFailure ns) (exec (ReplyFailure n1) s)).
  set (s1 := exec (ReplyFailure n1) s) in *. clearbody s1.
  destruct ns as [|n2 ns].
  { split; [intros _; exact Hs1|cbn [length]; lia]. }
  destruct (failure_below_budget n2 s1) as [Hs2 He2];
    [rewrite Hs1; done..|rewrite He1, He; reflexivity|].
  change (run (map ReplyFailure (n2 :: ns)) s1)
    with (run (map ReplyFailure ns) (exec (ReplyFailure n2) s1)).
  set (s2 := exec (ReplyFailure n2) s1) in *. clearbody s2.
  destruct ns as [|n3 ns].
  { split; [intros _; exact Hs2|cbn [length]; lia]. }
  split; [cbn [length]; intros [?|?]; discriminate|intros _].
  change (run (map ReplyFailure (n3 :: ns)) s2)
    with (run (map ReplyFailure ns) (exec (ReplyFailure n3) s2)).
  apply failures_in_fatal. apply failure_exhausts_budget;
    [rewrite Hs2; done..|].
  rewrite He2, He1, He. unfold kRequestAttemptsCount. lia.
Qed.

End Retry.

(** Three failures after the feature is switched on in the sample. *)
Lemma retry_budget_witness :
  m_state (run (map ReplyFailure [1; 2; 3]) (run Sample.enable (init Sample.env)))
  = FatalNetworkError.
Proof.
  apply (@retry_budget Sample.env (run Sample.enable (init Sample.env)) [1; 2; 3]).
  - vm_compute. discriminate.
  - vm_compute. discriminate.
  - vm_compute. reflexivity.
  - cbn [length]. lia.
Defined.

(** ** Viewport coalescing *)

(** A relative change of scale of at most a tenth is not a strong change. *)
Lemma scale_within_tenth (a d : Q) :
  (Qabs d <= (1 # 10) * Qabs a)%Q ->
  fgt (fdiv (Qabs d) a) kScaleEps = false.
Proof.
  intros Hle. unfold fdiv.
  pose proof (Qabs_nonneg d) as Hd.
  destruct (Qeq_bool a (0 # 1)) eqn:Ha.
  - apply Qeq_bool_eq in Ha.
    assert (Qabs a == 0)%Q as Ha0 by (rewrite Ha; reflexivity).
    rewrite Ha0 in Hle.
    assert (Qabs d == 0)%Q as Hd0 by lra.
    apply Qeq_eq_bool in Hd0. rewrite Hd0. reflexivity.
  - apply Qeq_bool_neq in Ha. cbn [fgt].
    apply negb_false_iff, Qle_bool_iff. unfold kScaleEps.
    destruct (Qlt_le_dec 0 a) as [Hpos|Hneg].
    + apply Qle_shift_div_r; [exact Hpos|].
      rewrite (Qabs_pos a) in Hle by lra. lra.
    + assert (a < 0)%Q as Hlt.
      { apply Qle_lteq in Hneg as [Hlt|Heq]; [exact Hlt|].
        exfalso. apply Ha. exact Heq. }
      assert (0 <= Qabs d / - a)%Q as Hq.
      { apply Qle_shift_div_l; lra. }
      assert (Qabs d / a == - (Qabs d / - a))%Q as -> by (field; lra).
      lra.
Qed.

Section Coalescing.

Context {E : Env}.

Implicit Types (s : GuidesManager E) (op : Op E).

Lemma not_dispatched s s' : m_api s' = m_api s -> ~ dispatched s s'.
Proof.
  intros Heq [r Hr]. rewrite Heq in Hr.
  apply (f_equal length) in Hr. rewrite length_app in Hr. cbn in Hr. lia.
Qed.

(** A call of UpdateViewport that sends a request is made in an active state
    with request parameters initialised, and records the viewport. *)
Lemma UpdateViewport_dispatched screen s :
  dispatched s (UpdateViewport screen s) ->
  m_state s <> Disabled /\ m_state s <> FatalNetworkError
  /\ IsRequestParamsInitialized (set_zoom (GetDrawTileScale E screen) (set_screen screen s)) = true
  /\ UpdateViewport screen s =
     RequestGuides (set_zoom (GetDrawTileScale E screen) (set_screen screen s)).
Proof.
  unfold UpdateViewport. intros Hdis.
  destruct (bool_decide (m_state s = Disabled)) eqn:Hd;
    [exfalso; revert Hdis; by apply not_dispatched|].
  destruct (bool_decide (m_state s = FatalNetworkError)) eqn:Hf;
    [exfalso; revert Hdis; by apply not_dispatched|].
  cbn [orb] in *.
  apply bool_decide_eq_false_1 in Hd, Hf.
  destruct (IsEmptyInterior E (GlobalRect E screen));
    [exfalso; revert Hdis; by apply not_dispatched|].
  match type of Hdis with
  | dispatched _ (if ?c then _ else _) => destruct c
  end; [exfalso; revert Hdis; by apply not_dispatched|].
  repeat split; try assumption.
  rewrite RequestGuides_eq in Hdis.
  destruct (IsRequestParamsInitialized _); [reflexivity|].
  exfalso; revert Hdis; by apply not_dispatched.
Qed.

(** In an active state with initialised request parameters, a viewport
    close to the recorded one is dropped. *)
Lemma UpdateViewport_similar s screen :
  m_state s <> Disabled -> m_state s <> FatalNetworkError ->
  IsRequestParamsInitialized s = true ->
  (Qabs (GetScale E (m_screen s) - GetScale E screen)
   <= (1 # 10) * Qabs (GetScale E (m_screen s)))%Q ->
  (8 # 10 < GetIntersectionScoreForPoints E
              (GetGlobalPoints E (GlobalRect E (m_screen s)))
              (GetGlobalPoints E (GlobalRect E screen)))%Q ->
  UpdateViewport screen s = s.
Proof.
  intros Hd Hf Hinit Hscale Hscore. unfold UpdateViewport.
  rewrite !bool_decide_false by assumption. cbn [orb].
  destruct (IsEmptyInterior E (GlobalRect E screen)); [reflexivity|].
  rewrite Hinit. rewrite scale_within_tenth by exact Hscale.
  cbn [andb negb].
  apply Qlt_not_le in Hscore.
  destruct (Qle_bool _ _) eqn:Hle; [|reflexivity].
  apply Qle_bool_iff in Hle. contradiction.
Qed.

(** C8.  If a call of UpdateViewport sent a request (and so recorded its
    viewport), a second call with a viewport whose scale differs from the
    recorded one by at most 10% and whose rectangle overlaps the recorded
    one with a score above 0.8 changes nothing: no request is sent and the
    new viewport is not recorded. *)
Theorem similar_viewport_coalesced s screen1 screen2 :
  dispatched s (UpdateViewport screen1 s) ->
  (Qabs (GetScale E screen1 - GetScale E screen2)
   <= (1 # 10) * Qabs (GetScale E screen1))%Q ->
  (8 # 10 < GetIntersectionScoreForPoints E
              (GetGlobalPoints E (GlobalRect E screen1))
              (GetGlobalPoints E (GlobalRect E screen2)))%Q ->
  UpdateViewport screen2 (UpdateViewport screen1 s) = UpdateViewport screen1 s.
Proof.
  intros Hdis Hscale Hscore.
  destruct (UpdateViewport_dispatched _ _ Hdis) as (Hd & Hf & Hinit & ->).
  rewrite RequestGuides_eq, Hinit.
  apply UpdateViewport_similar; assumption.
Qed.

End Coalescing.

(** The sample viewport panned by a fiftieth of its width, at the same
    scale. *)
Lemma similar_viewport_coalesced_witness :
  let s := run [CallSetEnabled true] (init Sample.env) in
  UpdateViewport Sample.screenB (UpdateViewport Sample.screenA s)
  = UpdateViewport Sample.screenA s.
Proof.
  apply (@similar_viewport_coalesced Sample.env).
  - eexists. vm_compute. reflexivity.
  - vm_compute. discriminate.
  - vm_compute. reflexivity.
Defined.

(** ** Requests and the gallery *)

Section Requests.

Context {E : Env}.

Implicit Types (s : GuidesManager E) (op : Op E).

(** C4, as amended.  RequestGuides sends a query if and only if the stored
    rectangle has an empty interior or the stored zoom is not 0; when
    neither holds no query is sent and the request counter keeps its
    value. *)
Theorem RequestGuides_dispatches s :
  (dispatched s (RequestGuides s)
   <-> IsEmptyInterior E (GlobalRect E (m_screen s)) = true \/ m_zoom s <> 0%Z)
  /\ (~ (IsEmptyInterior E (GlobalRect E (m_screen s)) = true \/ m_zoom s <> 0%Z) ->
      m_api (RequestGuides s) = m_api s
      /\ m_requestCounter (RequestGuides s) = m_requestCounter s).
Proof.
  assert (IsRequestParamsInitialized s = true
          <-> IsEmptyInterior E (GlobalRect E (m_screen s)) = true
              \/ m_zoom s <> 0%Z) as Hinit.
  { unfold IsRequestParamsInitialized.
    rewrite orb_true_iff, negb_true_iff, Z.eqb_neq. reflexivity. }
  rewrite <- Hinit. rewrite RequestGuides_eq.
  destruct (IsRequestParamsInitialized s); split.
  - split; [reflexivity|]. intros _. eexists. reflexivity.
  - intros H. by destruct H.
  - split; [|discriminate]. intros H. exfalso. revert H. by apply not_dispatched.
  - intros _. split; reflexivity.
Qed.

(** A combined count that fits its type is added without wrap-around. *)
Lemma addCounts_fit (a b : N) :
  a + b < 2 ^ countBits E -> addCounts E a b = a + b.
Proof. intros Hfit. unfold addCounts. by apply N.mod_small. Qed.

Lemma GetGallery_loop s guides items :
  fold_left (GetGallery_guide s) guides items
  = items ++ map (GetGallery_item s) (List.filter (gets_item E) guides).
Proof.
  revert items. induction guides as [|guide guides IH]; intros items.
  - cbn. by rewrite app_nil_r.
  - cbn [fold_left List.filter]. rewrite IH.
    unfold GetGallery_guide, gets_item.
    destruct (addCounts E (m_outdoorCount guide) (m_sightsCount guide) =? 1);
      cbn [negb map].
    + by rewrite <- app_assoc.
    + reflexivity.
Qed.

(** On records whose combined count fits, the test of GetGallery is "the
    two counts add up to one". *)
Lemma gets_item_fit (guides : GuidesOnMap) :
  forallb (counts_fit E) guides = true ->
  List.filter (gets_item E) guides = List.filter is_one_guide guides.
Proof.
  induction guides as [|guide guides IH]; [reflexivity|].
  cbn [forallb List.filter]. intros [Hfit Hrest]%andb_prop.
  rewrite (IH Hrest). unfold gets_item, is_one_guide.
  unfold counts_fit in Hfit. apply N.ltb_lt in Hfit.
  rewrite addCounts_fit by lia. reflexivity.
Qed.

(** C6, as amended.  When the combined count of every record of the guide
    list fits the type of the counts, the gallery has one item for every
    record whose two counts add up to exactly one, in the order of the
    list, and no item for any other record: neither for a cluster nor for
    a record whose counts are both 0. *)
Theorem gallery_lists_one_guide_records s :
  forallb (counts_fit E) (m_guides s) = true ->
  m_items (GetGallery s)
  = map (GetGallery_item s) (List.filter is_one_guide (m_guides s)).
Proof.
  intros Hfit. unfold GetGallery. cbn [m_items].
  rewrite GetGallery_loop, (gets_item_fit _ Hfit). reflexivity.
Qed.

End Requests.

(** The gallery of the sample once the first request is answered. *)
Lemma gallery_lists_one_guide_records_witness :
  let s := run Sample.displayed (init Sample.env) in
  m_items (GetGallery s)
  = map (GetGallery_item s) (List.filter is_one_guide (m_guides s)).
Proof.
  intros s. apply (@gallery_lists_one_guide_records Sample.env s).
  vm_compute. reflexivity.
Defined.

(** C4, as stated, fails in the controller as constructed: the default
    screen has a non-empty interior, the zoom is 0, and RequestGuides sends
    nothing. *)
Lemma default_viewport_not_requested :
  ~ (forall s : GuidesManager Sample.env,
        reachable s ->
        dispatched s (RequestGuides s)
        <-> IsEmptyInterior Sample.env (GlobalRect Sample.env (m_screen s)) = false
            \/ m_zoom s <> 0%Z).
Proof.
  intros H. specialize (H (init Sample.env) reachable_init).
  destruct H as [_ H].
  assert (dispatched (init Sample.env) (RequestGuides (init Sample.env))) as Hd.
  { apply H. left. vm_compute. reflexivity. }
  revert Hd. apply not_dispatched. vm_compute. reflexivity.
Qed.

(** C6, as stated, fails: a record with no sight and no outdoor guide is a
    single, the reply that carries it is stored, and the gallery is empty. *)
Lemma record_without_guides_not_in_gallery :
  ~ (forall s : GuidesManager Sample.env,
        reachable s ->
        map item_guideId (m_items (GetGallery s))
        = map (fun guide => m_id (m_guideInfo guide))
              (List.filter is_single (m_guides s))).
Proof.
  intros H.
  specialize (H (run (Sample.enable ++ [ReplySuccess 1 [Sample.emptyGuide]])
                     (init Sample.env))).
  assert (reachable (run (Sample.enable ++ [ReplySuccess 1 [Sample.emptyGuide]])
                         (init Sample.env))) as Hr.
  { apply run_reachable; [apply reachable_init|vm_compute; reflexivity]. }
  specialize (H Hr). vm_compute in H. discriminate H.
Qed.

(** C2.  In the sample the third failure in a row enters FatalNetworkError
    and clears the guides, and the same callback sends request 4 while the
    state is FatalNetworkError. *)
Lemma third_failure_requests_again :
  let s2 := run (Sample.enable ++ [ReplyFailure 1; ReplyFailure 2])
                (init Sample.env) in
  let s3 := exec (ReplyFailure 3) s2 in
  reachable s3
  /\ m_state s2 = NetworkError
  /\ m_api s2 = [mkRequest (GlobalRect Sample.env Sample.screenA) 10 3]
  /\ m_state s3 = FatalNetworkError
  /\ m_guides s3 = []
  /\ m_requestCounter s3 = 4
  /\ m_api s3 = [mkRequest (GlobalRect Sample.env Sample.screenA) 10 4].
Proof.
  intros s2 s3. split.
  - apply reachable_exec; [|vm_compute; reflexivity].
    apply run_reachable; [apply reachable_init|vm_compute; reflexivity].
  - repeat split; vm_compute; reflexivity.
Qed.

(** ** SetEnabled(true) outside Disabled *)

Section Restart.

Context {E : Env}.

Implicit Types (s : GuidesManager E) (op : Op E).

(** df::GetDrawTileScale yields a tile scale, which is never 0. *)
Hypothesis GetDrawTileScale_nonzero :
  forall screen, GetDrawTileScale E screen <> 0%Z.

Lemma recorded_initialized screen s :
  IsRequestParamsInitialized (set_zoom (GetDrawTileScale E screen) (set_screen screen s))
  = true.
Proof.
  unfold IsRequestParamsInitialized. cbn.
  apply orb_true_iff. right. apply negb_true_iff, Z.eqb_neq.
  apply GetDrawTileScale_nonzero.
Qed.

(** UpdateViewport either changes nothing or leaves a recorded viewport. *)
Lemma UpdateViewport_cases screen s :
  UpdateViewport screen s = s
  \/ IsRequestParamsInitialized (UpdateViewport screen s) = true.
Proof.
  unfold UpdateViewport.
  destruct (bool_decide (m_state s = Disabled)
            || bool_decide (m_state s = FatalNetworkError));
    [right; apply recorded_initialized|].
  destruct (IsEmptyInterior E (GlobalRect E screen)); [by left|].
  match goal with |- context [if ?c then s else _] => destruct c end;
    [by left|].
  right. rewrite RequestGuides_eq, recorded_initialized.
  apply (recorded_initialized screen s).
Qed.

Lemma initialized_exec s op :
  IsRequestParamsInitialized s = true ->
  IsRequestParamsInitialized (exec op s) = true.
Proof.
  intros Hinit.
  destruct op as [fn|screen| | |enabled|guideId|fn|mark screen|mark|n guides|n];
    cbn [exec].
  2: { destruct (UpdateViewport_cases screen s) as [->|H]; assumption. }
  1-8: by (call_cases; intros; cbn in *; try congruence; auto).
  - reply_cases s; [assumption|]. exact Hinit.
  - reply_cases s; intros; cbn in *; try congruence; auto.
Qed.

Lemma requests_possible_exec s op :
  admissible s op = true -> requests_possible s -> requests_possible (exec op s).
Proof.
  intros Hadm [Hinit|[Hapi Hst]]; [left; by apply initialized_exec|].
  destruct op as [fn|screen| | |enabled|guideId|fn|mark screen|mark|n guides|n];
    cbn [exec].
  10,11: by (cbn in Hadm; unfold pending in Hadm; rewrite Hapi in Hadm).
  2: { destruct (UpdateViewport_cases screen s) as [->|H];
         [right; by split|by left]. }
  all: unfold requests_possible; call_cases; intros; cbn in *;
    try (left; assumption);
    try (right; split; [assumption|]); auto;
    try (destruct Hst; congruence).
Qed.

Lemma reachable_requests_possible s :
  reachable s -> requests_possible s.
Proof.
  revert s. apply (reachable_ind_inv requests_possible).
  - right. split; [reflexivity|by left].
  - intros s op _ Hs Hadm. by apply requests_possible_exec.
Qed.

Lemma SetEnabled_true_state s : m_state (SetEnabled true s) = Enabled.
Proof.
  unfold SetEnabled. case_bool_decide as Hst; [done|].
  cbn [negb]. rewrite RequestGuides_eq, Clear_eq, ChangeState_eq. cbn.
  rewrite bool_decide_false by congruence.
  repeat case_match; reflexivity.
Qed.

(** C10.  SetEnabled(true) leaves the controller as it is exactly when the
    state is Enabled.  Called in a reachable state that is HasData, NoData,
    NetworkError or FatalNetworkError, it empties the guide list, the active
    guide id, the error counter and the shown-guides set, makes the state
    Enabled, tells the state listener (when one is registered) and sends a
    new request with the stored rectangle and zoom. *)
Theorem SetEnabled_true_restarts s :
  reachable s ->
  (SetEnabled true s = s <-> m_state s = Enabled)
  /\ (m_state s = HasData \/ m_state s = NoData \/ m_state s = NetworkError
      \/ m_state s = FatalNetworkError ->
      let s' := SetEnabled true s in
      m_guides s' = []
      /\ m_activeGuide s' = EmptyString
      /\ m_errorRequestsCount s' = 0
      /\ m_shownGuides s' = ∅
      /\ m_state s' = Enabled
      /\ notifications s'
         = notifications s
           ++ (if m_onStateChanged s then [StateChanged Enabled] else [])
      /\ m_requestCounter s' = m_requestCounter s + 1
      /\ m_api s'
         = m_api s ++ [mkRequest (GlobalRect E (m_screen s)) (m_zoom s)
                                 (m_requestCounter s + 1)]).
Proof.
  intros Hs. split.
  - split.
    + intros Heq. rewrite <- Heq. apply SetEnabled_true_state.
    + intros Hst. unfold SetEnabled. by rewrite bool_decide_true.
  - intros Hst.
    assert (IsRequestParamsInitialized s = true) as Hinit.
    { destruct (reachable_requests_possible s Hs) as [H|[_ [H|H]]];
        [exact H|exfalso; rewrite H in Hst..];
        destruct Hst as [?|[?|[?|?]]]; discriminate. }
    assert (m_state s <> Enabled) as Hne
      by (intros H; rewrite H in Hst; destruct Hst as [?|[?|[?|?]]]; discriminate).
    cbn zeta. unfold SetEnabled.
    rewrite bool_decide_false by congruence.
    cbn [negb]. rewrite RequestGuides_eq, Clear_eq, ChangeState_eq. cbn.
    rewrite bool_decide_false by congruence.
    destruct (m_onStateChanged s); cbn;
      change (IsRequestParamsInitialized _) with (IsRequestParamsInitialized s);
      rewrite Hinit; cbn; rewrite ?app_nil_r; repeat split; reflexivity.
Qed.

End Restart.

(** The feature is switched on again while guides are displayed. *)
Lemma SetEnabled_true_restarts_witness :
  let s := run (Sample.enable ++ [ReplySuccess 1 [Sample.cityGuide]])
               (init Sample.env) in
  m_state s = HasData
  /\ m_state (SetEnabled true s) = Enabled
  /\ m_requestCounter (SetEnabled true s) = m_requestCounter s + 1.
Proof.
  intros s. split; [vm_compute; reflexivity|].
  assert (forall screen, GetDrawTileScale Sample.env screen <> 0%Z) as Hzoom
    by (intros screen; cbn; lia).
  assert (reachable s) as Hs
    by (apply run_reachable; [apply reachable_init|vm_compute; reflexivity]).
  destruct (@SetEnabled_true_restarts Sample.env Hzoom s Hs) as [_ H].
  destruct H as (_ & _ & _ & _ & Hst & _ & Hrc & _);
    [left; vm_compute; reflexivity|].
  split; [exact Hst|exact Hrc].
Defined.

(** * Further properties of the controller *)
(** ** The mark projection *)

Section Marks.

Context {E : Env}.

Implicit Types (s : GuidesManager E) (op : Op E).

Lemma UpdateActiveGuide_groups s :
  group_GUIDE_CLUSTER (m_bmManager (UpdateActiveGuide s))
  = group_GUIDE_CLUSTER (m_bmManager s)
  /\ group_GUIDE (m_bmManager (UpdateActiveGuide s)) = group_GUIDE (m_bmManager s)
  /\ m_nextMarkIndex (UpdateActiveGuide s) = m_nextMarkIndex s.
Proof. unfold UpdateActiveGuide. cbn. case_match; repeat split. Qed.

(** The loop of UpdateGuidesMarks, seen through what it adds. *)
Lemma UpdateGuidesMarks_loop guides s :
  let s' := fold_left UpdateGuidesMarks_guide guides s in
  map cluster_view (group_GUIDE_CLUSTER (m_bmManager s'))
  = map cluster_view (group_GUIDE_CLUSTER (m_bmManager s))
    ++ map cluster_shown (List.filter (gets_cluster_mark E) guides)
  /\ map guide_view (group_GUIDE (m_bmManager s'))
     = map guide_view (group_GUIDE (m_bmManager s))
       ++ map guide_shown (List.filter (gets_guide_mark E) guides)
  /\ m_nextMarkIndex s' = m_nextMarkIndex s + N.of_nat (length guides)
  /\ m_shownGuides s'
     = m_shownGuides s ∪ list_to_set (guide_ids (List.filter (gets_guide_mark E) guides))
  /\ group_GUIDE_SELECTION (m_bmManager s') = group_GUIDE_SELECTION (m_bmManager s)
  /\ m_activeGuide s' = m_activeGuide s.
Proof.
  revert s. induction guides as [|guide guides IH]; intros s.
  - cbn. rewrite !app_nil_r. repeat split; [lia|set_solver].
  - cbn [fold_left]. cbn zeta in *.
    destruct (IH (UpdateGuidesMarks_guide s guide))
      as (IHc & IHg & IHi & IHs & IHsel & IHa).
    rewrite IHc, IHg, IHi, IHs, IHsel, IHa. clear IH IHc IHg IHi IHs IHsel IHa.
    unfold UpdateGuidesMarks_guide.
    cbn [List.filter]. unfold gets_guide_mark, gets_cluster_mark.
    destruct (1 <? addCounts E (m_sightsCount guide) (m_outdoorCount guide)); cbn.
    + rewrite map_app, <- app_assoc. cbn. repeat split. lia.
    + rewrite map_app, <- app_assoc. cbn. repeat split; [lia|].
      unfold guide_ids. set_solver.
Qed.

Lemma UpdateGuidesMarks_effect s :
  let s' := UpdateGuidesMarks s in
  map cluster_view (group_GUIDE_CLUSTER (m_bmManager s'))
  = map cluster_shown (List.filter (gets_cluster_mark E) (m_guides s))
  /\ map guide_view (group_GUIDE (m_bmManager s'))
     = map guide_shown (List.filter (gets_guide_mark E) (m_guides s))
  /\ m_nextMarkIndex s' = m_nextMarkIndex s + N.of_nat (length (m_guides s))
  /\ m_shownGuides s'
     = m_shownGuides s
       ∪ list_to_set (guide_ids (List.filter (gets_guide_mark E) (m_guides s)))
  /\ m_guides s' = m_guides s.
Proof.
  cbn zeta. unfold UpdateGuidesMarks.
  match goal with
  | |- context [fold_left UpdateGuidesMarks_guide ?l ?x] =>
      change l with (m_guides s); set (s1 := x)
  end.
  destruct (UpdateGuidesMarks_loop (m_guides s) s1)
    as (Hcl & Hgl & Hidx & Hsh & _).
  pose proof (UpdateGuidesMarks_loop_core (m_guides s) s1) as Hcore.
  cbn zeta in *.
  set (s2 := fold_left UpdateGuidesMarks_guide (m_guides s) s1) in *.
  destruct (UpdateActiveGuide_groups s2) as (-> & -> & ->).
  rewrite UpdateActiveGuide_shown.
  pose proof (UpdateActiveGuide_core s2) as Hcore2.
  rewrite Hcore in Hcore2. unfold core in Hcore2.
  injection Hcore2 as _ _ _ _ _ _ _ -> _ _ _.
  rewrite Hcl, Hgl, Hidx, Hsh. repeat split.
Qed.

End Marks.


(** ** The selection mark *)

Section Selection.

Context {E : Env}.

Implicit Types (s : GuidesManager E) (op : Op E).

(** UpdateActiveGuide, by whether a single-guide mark carries the active
    guide id. *)
Lemma UpdateActiveGuide_found s mark :
  List.find (fun mark => String.eqb (guide_id mark) (m_activeGuide s))
            (group_GUIDE (m_bmManager s)) = Some mark ->
  UpdateActiveGuide s
  = set_bmManager
      (mkBookmarkManager (group_GUIDE_CLUSTER (m_bmManager s))
         (group_GUIDE (m_bmManager s)) [mkSelectionMark (guide_pivot mark)]) s.
Proof. intros Hfind. unfold UpdateActiveGuide. cbn. rewrite Hfind. reflexivity. Qed.

Lemma UpdateActiveGuide_missing s :
  List.find (fun mark => String.eqb (guide_id mark) (m_activeGuide s))
            (group_GUIDE (m_bmManager s)) = None ->
  UpdateActiveGuide s
  = set_activeGuide EmptyString
      (set_bmManager
         (mkBookmarkManager (group_GUIDE_CLUSTER (m_bmManager s))
            (group_GUIDE (m_bmManager s)) []) s).
Proof. intros Hfind. unfold UpdateActiveGuide. cbn. rewrite Hfind. reflexivity. Qed.

(** X13.  UpdateActiveGuide leaves one selection mark, at the pivot of a
    single-guide mark that carries the active guide id, and keeps the id,
    when such a mark exists; otherwise it leaves no selection mark and
    empties the active guide id. *)
Theorem UpdateActiveGuide_reconciles s :
  let s' := UpdateActiveGuide s in
  let rendered :=
    exists mark, In mark (group_GUIDE (m_bmManager s))
                 /\ guide_id mark = m_activeGuide s in
  (rendered ->
   m_activeGuide s' = m_activeGuide s
   /\ exists mark, In mark (group_GUIDE (m_bmManager s))
                   /\ guide_id mark = m_activeGuide s
                   /\ group_GUIDE_SELECTION (m_bmManager s')
                      = [mkSelectionMark (guide_pivot mark)])
  /\ (~ rendered ->
      m_activeGuide s' = EmptyString
      /\ group_GUIDE_SELECTION (m_bmManager s') = []).
Proof.
  cbn zeta.
  destruct (List.find (fun mark => String.eqb (guide_id mark) (m_activeGuide s))
                      (group_GUIDE (m_bmManager s))) as [mark|] eqn:Hfind.
  - rewrite (UpdateActiveGuide_found s mark Hfind).
    apply find_some in Hfind as [Hin Heq]. apply String.eqb_eq in Heq.
    split.
    + intros _. split; [reflexivity|]. exists mark. repeat split; assumption.
    + intros Hno. exfalso. apply Hno. exists mark. split; assumption.
  - rewrite (UpdateActiveGuide_missing s Hfind). split.
    + intros (mark & Hin & Heq). exfalso.
      pose proof (find_none _ _ Hfind mark Hin) as Hne. cbn in Hne.
      apply String.eqb_neq in Hne. contradiction.
    + intros _. split; reflexivity.
Qed.

(** X14.  Calling SetActiveGuide twice with the same id is the same as calling
    it once. *)
Theorem SetActiveGuide_idempotent guideId s :
  SetActiveGuide guideId (SetActiveGuide guideId s) = SetActiveGuide guideId s.
Proof.
  destruct (String.eqb (m_activeGuide s) guideId) eqn:Heq.
  - assert (SetActiveGuide guideId s = s) as ->
      by (unfold SetActiveGuide; rewrite Heq; reflexivity).
    unfold SetActiveGuide. rewrite Heq. reflexivity.
  - assert (SetActiveGuide guideId s
            = UpdateActiveGuide (set_activeGuide guideId s)) as ->
      by (unfold SetActiveGuide; rewrite Heq; reflexivity).
    destruct (List.find
                (fun mark => String.eqb (guide_id mark)
                               (m_activeGuide (set_activeGuide guideId s)))
                (group_GUIDE (m_bmManager (set_activeGuide guideId s))))
      as [mark|] eqn:Hfind.
    + rewrite (UpdateActiveGuide_found _ mark Hfind).
      unfold SetActiveGuide. cbn. rewrite String.eqb_refl. reflexivity.
    + rewrite (UpdateActiveGuide_missing _ Hfind).
      unfold SetActiveGuide.
      cbn [m_activeGuide set_activeGuide set_bmManager].
      destruct (String.eqb EmptyString guideId) eqn:Hempty; [reflexivity|].
      rewrite UpdateActiveGuide_missing by exact Hfind. reflexivity.
Qed.

End Selection.


(** ** Marks, guides and the shown set in reachable states *)

Section MarkInvariants.

Context {E : Env}.

Implicit Types (s : GuidesManager E) (op : Op E).

Lemma ChangeState_marks_part newState s :
  marks_part (ChangeState newState s) = marks_part s.
Proof.
  rewrite ChangeState_eq. case_bool_decide; [reflexivity|].
  destruct (m_onStateChanged s); reflexivity.
Qed.

Lemma onSuccess_stored_part guides s :
  marks_part (onSuccess_stored guides s)
  = (guides, m_activeGuide s, m_shownGuides s, m_nextMarkIndex s, m_bmManager s).
Proof.
  unfold onSuccess_stored. destruct guides; rewrite ChangeState_marks_part;
    reflexivity.
Qed.

(** A success reply that is not discarded puts the marks of its guides on
    the map. *)
Lemma onSuccess_marks_part guides s :
  m_state s <> Disabled ->
  marks_part (RequestGuides_onSuccess guides s)
  = marks_part (UpdateGuidesMarks (onSuccess_stored guides s)).
Proof.
  intros Hst. unfold RequestGuides_onSuccess.
  rewrite bool_decide_false by exact Hst. cbn zeta.
  change (match m_guides (set_errorRequestsCount 0 (set_guides guides s)) with
          | [] => ChangeState NoData (set_errorRequestsCount 0 (set_guides guides s))
          | _ :: _ => ChangeState HasData (set_errorRequestsCount 0 (set_guides guides s))
          end) with (onSuccess_stored guides s).
  destruct (m_onGalleryChanged _); reflexivity.
Qed.

Lemma UpdateActiveGuide_selection s :
  (length (group_GUIDE_SELECTION (m_bmManager (UpdateActiveGuide s))) <= 1)%nat.
Proof. unfold UpdateActiveGuide. cbn. case_match; cbn; lia. Qed.

Lemma UpdateGuidesMarks_selection s :
  (length (group_GUIDE_SELECTION (m_bmManager (UpdateGuidesMarks s))) <= 1)%nat.
Proof. unfold UpdateGuidesMarks. apply UpdateActiveGuide_selection. Qed.

Lemma UpdateGuidesMarks_guide_indices s guide :
  indices_fresh s -> indices_fresh (UpdateGuidesMarks_guide s guide).
Proof.
  unfold indices_fresh, mark_indices. intros [Hnd Hall].
  assert (m_nextMarkIndex s + 1 ∉ map cluster_index (group_GUIDE_CLUSTER (m_bmManager s))
                                  ++ map guide_index (group_GUIDE (m_bmManager s)))
    as Hnew.
  { intros Hin. rewrite Forall_forall in Hall. apply Hall in Hin. lia. }
  assert (Forall (fun i => 1 <= i <= m_nextMarkIndex s + 1)
            (map cluster_index (group_GUIDE_CLUSTER (m_bmManager s))
             ++ map guide_index (group_GUIDE (m_bmManager s)))) as Hall'.
  { eapply Forall_impl; [exact Hall|]. cbn. intros i Hi. lia. }
  unfold UpdateGuidesMarks_guide. case_match; cbn; rewrite map_app; cbn.
  - split.
    + rewrite <- app_assoc. cbn.
      apply NoDup_app in Hnd as (Hc & Hcg & Hg).
      apply NoDup_app. split; [exact Hc|]. split.
      * intros i Hi [->|Hig]%elem_of_cons.
        -- apply Hnew. apply elem_of_app. by left.
        -- by apply (Hcg i).
      * apply NoDup_cons. split; [|exact Hg].
        intros Hin. apply Hnew. apply elem_of_app. by right.
    + rewrite <- app_assoc. cbn. apply Forall_app in Hall' as [Hc Hg].
      apply Forall_app. split; [exact Hc|]. apply Forall_cons. split; [lia|exact Hg].
  - split.
    + rewrite app_assoc. apply NoDup_app. split; [exact Hnd|]. split.
      * intros i Hi ->%list_elem_of_singleton. by apply Hnew.
      * apply NoDup_singleton.
    + rewrite app_assoc. apply Forall_app. split; [exact Hall'|].
      apply Forall_singleton. lia.
Qed.

Lemma UpdateGuidesMarks_loop_indices guides s :
  indices_fresh s -> indices_fresh (fold_left UpdateGuidesMarks_guide guides s).
Proof.
  revert s. induction guides as [|guide guides IH]; intros s Hs; [exact Hs|].
  cbn [fold_left]. apply IH. by apply UpdateGuidesMarks_guide_indices.
Qed.

Lemma UpdateActiveGuide_indices s :
  indices_fresh s -> indices_fresh (UpdateActiveGuide s).
Proof.
  unfold indices_fresh, mark_indices.
  destruct (UpdateActiveGuide_groups s) as (-> & -> & ->). auto.
Qed.

Lemma UpdateGuidesMarks_indices s : indices_fresh (UpdateGuidesMarks s).
Proof.
  unfold UpdateGuidesMarks. cbn zeta.
  apply UpdateActiveGuide_indices, UpdateGuidesMarks_loop_indices.
  unfold indices_fresh, mark_indices. cbn. split; constructor.
Qed.

End MarkInvariants.


Section MapInvariant.

Context {E : Env}.

Implicit Types (s : GuidesManager E) (op : Op E).

Lemma map_in_sync_part s1 s2 :
  marks_part s1 = marks_part s2 -> map_in_sync s1 -> map_in_sync s2.
Proof.
  unfold marks_part. intros Heq. injection Heq as Hg Ha Hs Hi Hb.
  unfold map_in_sync, marks_mirror_guides, indices_fresh, singles_shown.
  rewrite Hg, Hs, Hi, Hb. auto.
Qed.

(** A record whose combined count is at most one cannot wrap around: the
    code gives it a single-guide mark. *)
Lemma single_gets_guide_mark guide :
  is_single guide = true -> gets_guide_mark E guide = true.
Proof.
  unfold is_single, is_cluster, gets_guide_mark, gets_cluster_mark, addCounts.
  rewrite !negb_true_iff, !N.ltb_ge. intros Hle.
  etransitivity; [|exact Hle]. apply N.Div0.mod_le.
Qed.

Lemma UpdateGuidesMarks_in_sync s : map_in_sync (UpdateGuidesMarks s).
Proof.
  destruct (UpdateGuidesMarks_effect s) as (Hcl & Hgl & _ & Hsh & Hg).
  cbn zeta in *. repeat split.
  - rewrite Hcl, Hg. reflexivity.
  - rewrite Hgl, Hg. reflexivity.
  - apply UpdateGuidesMarks_indices.
  - apply UpdateGuidesMarks_indices.
  - intros guide Hin Hsingle. rewrite Hsh. rewrite Hg in Hin.
    apply elem_of_union. right. apply elem_of_list_to_set.
    unfold guide_ids. apply list_elem_of_In. apply in_map_iff.
    exists guide. split; [reflexivity|].
    apply filter_In. split; [assumption|by apply single_gets_guide_mark].
  - apply UpdateGuidesMarks_selection.
Qed.

Lemma map_in_sync_exec s op : map_in_sync s -> map_in_sync (exec op s).
Proof.
  intros Hs.
  destruct op as [fn|screen| | |enabled|guideId|fn|mark screen|mark|n guides|n];
    cbn [exec].
  10: { destruct (decide (m_state s = Disabled)) as [Hd|Hd].
        - rewrite onSuccess_Disabled by exact Hd. exact Hs.
        - eapply map_in_sync_part;
            [symmetry; apply onSuccess_marks_part; exact Hd|].
          apply UpdateGuidesMarks_in_sync. }
  all: destruct Hs as ((Hcl & Hgl) & (Hnd & Hall) & Hshown & Hsel);
    unfold map_in_sync, marks_mirror_guides, indices_fresh, singles_shown,
      mark_indices in *.
  1-9: call_cases; cbn; repeat split; try assumption; try constructor; try done; try lia.
  reply_cases s; cbn; repeat split; try assumption; try constructor; try done;
    try lia.
Qed.

Lemma reachable_map_in_sync s : reachable s -> map_in_sync s.
Proof.
  revert s. apply (reachable_ind_inv map_in_sync).
  - unfold map_in_sync, marks_mirror_guides, indices_fresh, singles_shown,
      mark_indices. cbn.
    split; [by split|]. split; [split; constructor|]. split; [|lia].
    intros guide [].
  - intros s op _ Hs _. by apply map_in_sync_exec.
Qed.

(** X15.  In every reachable state the cluster marks are, in order, those of
    the records of the guide list that pass the cluster test of
    UpdateGuidesMarks (combined count, added in the type of the counts,
    above one), with point and both counts, and the single-guide marks those
    of the records that fail it, with point, kind and id. *)
Theorem marks_follow_guides s :
  reachable s ->
  map cluster_view (group_GUIDE_CLUSTER (m_bmManager s))
  = map cluster_shown (List.filter (gets_cluster_mark E) (m_guides s))
  /\ map guide_view (group_GUIDE (m_bmManager s))
     = map guide_shown (List.filter (gets_guide_mark E) (m_guides s)).
Proof. intros Hs. apply (reachable_map_in_sync s Hs). Qed.

(** X16.  In every reachable state the indices of the cluster and single-guide
    marks are pairwise distinct, at least 1 and at most the mark index. *)
Theorem mark_indices_distinct s :
  reachable s ->
  NoDup (mark_indices (m_bmManager s))
  /\ Forall (fun i => 1 <= i <= m_nextMarkIndex s) (mark_indices (m_bmManager s)).
Proof. intros Hs. apply (reachable_map_in_sync s Hs). Qed.

(** X17.  In every reachable state the id of every single of the guide list is
    in the shown-guides set. *)
Theorem singles_are_shown s guide :
  reachable s -> In guide (m_guides s) -> is_single guide = true ->
  m_id (m_guideInfo guide) ∈ m_shownGuides s.
Proof. intros Hs. apply (reachable_map_in_sync s Hs). Qed.

(** X18.  In every reachable state there is at most one selection mark. *)
Theorem one_selection_mark_at_most s :
  reachable s ->
  (length (group_GUIDE_SELECTION (m_bmManager s)) <= 1)%nat.
Proof. intros Hs. apply (reachable_map_in_sync s Hs). Qed.

(** A record that gets a gallery item gets a single-guide mark. *)
Lemma item_gets_guide_mark guide :
  gets_item E guide = true -> gets_guide_mark E guide = true.
Proof.
  unfold gets_item, gets_guide_mark, gets_cluster_mark, addCounts.
  rewrite negb_true_iff, N.ltb_ge, N.eqb_eq.
  rewrite (N.add_comm (m_outdoorCount guide)). intros ->. lia.
Qed.

(** For a record whose two counts add up to one, the gallery item and the
    mark agree on the kind. *)
Lemma item_matches_mark s guide :
  is_one_guide guide = true ->
  mark_type_of (item_type (GetGallery_item s guide)) = (guide_shown guide).1.2.
Proof.
  unfold is_one_guide, GetGallery_item, guide_shown. intros Hone.
  apply N.eqb_eq in Hone.
  destruct (m_sightsCount guide =? 1) eqn:Hs; cbn.
  - apply N.eqb_eq in Hs. rewrite Hs. reflexivity.
  - apply N.eqb_neq in Hs.
    assert (m_sightsCount guide = 0) as -> by lia. reflexivity.
Qed.

Lemma item_id s guide :
  item_guideId (GetGallery_item s guide) = m_id (m_guideInfo guide).
Proof. unfold GetGallery_item. case_match; reflexivity. Qed.

Lemma gallery_ids_sublist s (guides : GuidesOnMap) :
  sublist
    (map (fun guide => item_guideId (GetGallery_item s guide))
         (List.filter (gets_item E) guides))
    (map (fun guide => (guide_shown guide).2)
         (List.filter (gets_guide_mark E) guides)).
Proof.
  induction guides as [|guide guides IH]; [constructor|].
  cbn [List.filter].
  destruct (gets_item E guide) eqn:Hitem.
  - rewrite (item_gets_guide_mark guide Hitem). cbn [map].
    rewrite item_id. apply sublist_skip, IH.
  - destruct (gets_guide_mark E guide); [cbn [map]; by constructor|exact IH].
Qed.

Lemma gallery_kinds_sublist s (guides : GuidesOnMap) :
  forallb (counts_fit E) guides = true ->
  sublist
    (map (fun guide =>
            (item_guideId (GetGallery_item s guide),
             mark_type_of (item_type (GetGallery_item s guide))))
         (List.filter (gets_item E) guides))
    (map (fun guide => ((guide_shown guide).2, (guide_shown guide).1.2))
         (List.filter (gets_guide_mark E) guides)).
Proof.
  induction guides as [|guide guides IH]; [constructor|].
  cbn [forallb List.filter]. intros [Hfit Hrest]%andb_prop.
  specialize (IH Hrest).
  destruct (gets_item E guide) eqn:Hitem.
  - rewrite (item_gets_guide_mark guide Hitem). cbn [map].
    assert (is_one_guide guide = true) as Hone.
    { unfold gets_item in Hitem. unfold is_one_guide.
      unfold counts_fit in Hfit. apply N.ltb_lt in Hfit.
      rewrite addCounts_fit in Hitem by lia. exact Hitem. }
    rewrite (item_matches_mark s guide Hone), item_id. apply sublist_skip, IH.
  - destruct (gets_guide_mark E guide); [cbn [map]; by constructor|exact IH].
Qed.

(** X19.  In every reachable state the ids of the gallery items, in order,
    are a sublist of the ids of the single-guide marks: every item is backed
    by a mark of the same guide.  When the combined count of every record of
    the guide list fits the type of the counts, item and mark are also of
    the same kind. *)
Theorem gallery_items_have_marks s :
  reachable s ->
  sublist (map item_guideId (m_items (GetGallery s)))
          (map guide_id (group_GUIDE (m_bmManager s)))
  /\ (forallb (counts_fit E) (m_guides s) = true ->
      sublist
        (map (fun item => (item_guideId item, mark_type_of (item_type item)))
             (m_items (GetGallery s)))
        (map (fun mark => (guide_id mark, guide_type mark))
             (group_GUIDE (m_bmManager s)))).
Proof.
  intros Hs. destruct (reachable_map_in_sync s Hs) as ((_ & Hgl) & _).
  assert (map (fun mark => (guide_id mark, guide_type mark))
              (group_GUIDE (m_bmManager s))
          = map (fun v : PointD * GuideMarkType * string => (v.2, v.1.2))
                (map guide_view (group_GUIDE (m_bmManager s)))) as Hkinds
    by (rewrite map_map; reflexivity).
  assert (map guide_id (group_GUIDE (m_bmManager s))
          = map (fun v : PointD * GuideMarkType * string => v.2)
                (map guide_view (group_GUIDE (m_bmManager s)))) as Hids
    by (rewrite map_map; reflexivity).
  rewrite Hkinds, Hids, Hgl, !map_map.
  unfold GetGallery. cbn [m_items]. rewrite GetGallery_loop. cbn [app].
  rewrite !map_map. split.
  - apply gallery_ids_sublist.
  - apply gallery_kinds_sublist.
Qed.

End MapInvariant.


(** ** Requests, errors and the state listener in reachable states *)

Section RequestInvariants.

Context {E : Env}.

Implicit Types (s : GuidesManager E) (op : Op E).

Lemma numbered_from_weaken low low' (requests : list (Request E)) :
  low' <= low -> numbered_from low requests -> numbered_from low' requests.
Proof. destruct requests; cbn; [done|]. intros Hle [Hlt Hrest]. split; [lia|done]. Qed.

Lemma numbered_append (api : list (Request E)) low c rect zoom :
  low <= c ->
  numbered_from low api /\ Forall (fun r => req_number r <= c) api ->
  numbered_from low (api ++ [mkRequest rect zoom (c + 1)])
  /\ Forall (fun r => req_number r <= c + 1) (api ++ [mkRequest rect zoom (c + 1)]).
Proof.
  revert low. induction api as [|r api IH]; intros low Hlow [Hnum Hall].
  - cbn. split; [split; [lia|done]|]. repeat constructor. cbn. lia.
  - destruct Hnum as [Hlt Hnum]. apply Forall_cons in Hall as [Hr Hall].
    destruct (IH (req_number r) Hr (conj Hnum Hall)) as [IH1 IH2].
    cbn. split; [split; assumption|]. constructor; [lia|exact IH2].
Qed.

Lemma numbered_filter (api : list (Request E)) low c f :
  numbered_from low api /\ Forall (fun r => req_number r <= c) api ->
  numbered_from low (List.filter f api)
  /\ Forall (fun r => req_number r <= c) (List.filter f api).
Proof.
  revert low. induction api as [|r api IH]; intros low [Hnum Hall]; [done|].
  destruct Hnum as [Hlt Hnum]. apply Forall_cons in Hall as [Hr Hall].
  destruct (IH (req_number r) (conj Hnum Hall)) as [IH1 IH2].
  cbn [List.filter]. destruct (f r).
  - cbn. split; [split; assumption|]. by constructor.
  - split; [|exact IH2]. eapply numbered_from_weaken; [|exact IH1]. lia.
Qed.

Lemma requests_numbered_exec s op :
  requests_numbered s -> requests_numbered (exec op s).
Proof.
  unfold requests_numbered. intros Hs.
  destruct op as [fn|screen| | |enabled|guideId|fn|mark screen|mark|n guides|n];
    cbn [exec].
  1-9: by (call_cases; first [exact Hs | apply numbered_append; [lia|exact Hs]]).
  - reply_cases s; by apply numbered_filter.
  - reply_cases s;
      first [ by apply numbered_filter
            | apply numbered_append; [lia|by apply numbered_filter] ].
Qed.

(** X20.  In every reachable state the request numbers of the unanswered
    requests strictly increase along the queue, starting above 0, and none
    exceeds the request counter. *)
Theorem pending_requests_numbered s :
  reachable s ->
  numbered_from 0 (m_api s)
  /\ Forall (fun r => req_number r <= m_requestCounter s) (m_api s).
Proof.
  revert s. apply (reachable_ind_inv requests_numbered).
  - split; constructor.
  - intros s op _ Hs _. by apply requests_numbered_exec.
Qed.

Lemma errors_counted_exec s op : errors_counted s -> errors_counted (exec op s).
Proof.
  unfold errors_counted. intros Hs.
  destruct op as [fn|screen| | |enabled|guideId|fn|mark screen|mark|n guides|n];
    cbn [exec].
  1-9: by (call_cases; first [exact Hs | right; split; [congruence|reflexivity]
                              | destruct Hs as [[? ?]|[? ?]]; [congruence|right; split; congruence] ] ).
  - reply_cases s; [exact Hs|]. right. split; [destruct guides; discriminate|reflexivity].
  - reply_cases s; budget_arith; try exact Hs;
      first [ right; split; [congruence|reflexivity]
            | left; split; [first [reflexivity|assumption]|];
              destruct Hs as [[_ [?|?]]|[_ ?]]; lia ].
Qed.

(** X21.  In every reachable state the error counter is 1 or 2 when the state
    is NetworkError and 0 otherwise. *)
Theorem error_counter_only_in_NetworkError s :
  reachable s ->
  (m_state s = NetworkError
   /\ (m_errorRequestsCount s = 1 \/ m_errorRequestsCount s = 2))
  \/ (m_state s <> NetworkError /\ m_errorRequestsCount s = 0).
Proof.
  revert s. apply (reachable_ind_inv errors_counted).
  - right. split; [discriminate|reflexivity].
  - intros s op _ Hs _. by apply errors_counted_exec.
Qed.

Lemma last_told_state (log : list Notification) st :
  last_told (log ++ [StateChanged st]) = Some st.
Proof. unfold last_told. rewrite fold_left_app. reflexivity. Qed.

Lemma last_told_gallery (log : list Notification) reload :
  last_told (log ++ [GalleryChanged reload]) = last_told log.
Proof. unfold last_told. rewrite fold_left_app. reflexivity. Qed.

Lemma listener_up_to_date_exec s op :
  listener_up_to_date s -> listener_up_to_date (exec op s).
Proof.
  unfold listener_up_to_date. intros Hs.
  destruct op as [fn|screen| | |enabled|guideId|fn|mark screen|mark|n guides|n];
    cbn [exec].
  1-9: by (call_cases; intros; cbn in *;
           rewrite ?last_told_gallery, ?last_told_state;
           first [reflexivity | congruence | auto]).
  - reply_cases s; [exact Hs|]. intros Hon. rewrite Hon.
    destruct (m_onGalleryChanged s);
      rewrite ?app_nil_r, ?app_assoc, ?last_told_gallery;
      case_bool_decide as Hst;
      rewrite ?app_nil_r, ?last_told_state; try reflexivity;
      rewrite Hs by exact Hon; congruence.
  - reply_cases s; intros; cbn in *;
      rewrite ?last_told_gallery, ?last_told_state;
      first [reflexivity | congruence | auto].
Qed.

(** X22.  In every reachable state with a registered state listener, the state
    the listener was told last is the current state. *)
Theorem state_listener_up_to_date s :
  reachable s -> m_onStateChanged s = true ->
  last_told (notifications s) = Some (m_state s).
Proof.
  revert s. apply (reachable_ind_inv listener_up_to_date).
  - intros Hon. discriminate Hon.
  - intros s op _ Hs _. by apply listener_up_to_date_exec.
Qed.

End RequestInvariants.


(** ** Single operations *)

Lemma clusters_and_singles (E : Env) (guides : GuidesOnMap) :
  (length (List.filter (gets_cluster_mark E) guides) + length (List.filter (gets_guide_mark E) guides)
   = length guides)%nat.
Proof.
  induction guides as [|guide guides IH]; [reflexivity|].
  cbn [List.filter length]. unfold gets_guide_mark at 1.
  destruct (gets_cluster_mark E guide); cbn [negb length]; lia.
Qed.

Section SingleOperations.

Context {E : Env}.

Implicit Types (s : GuidesManager E) (op : Op E).

Lemma SetEnabled_false_state s : m_state (SetEnabled false s) = Disabled.
Proof.
  unfold SetEnabled. case_bool_decide as Hst; [done|].
  cbn [negb]. rewrite Clear_eq, ChangeState_eq. cbn.
  rewrite bool_decide_false by congruence.
  repeat case_match; reflexivity.
Qed.

(** X1.  After SetEnabled(enabled), IsEnabled() returns [enabled], whatever
    the state was. *)
Theorem IsEnabled_SetEnabled enabled s :
  IsEnabled (SetEnabled enabled s) = enabled.
Proof.
  unfold IsEnabled. destruct enabled.
  - rewrite SetEnabled_true_state. reflexivity.
  - rewrite SetEnabled_false_state. reflexivity.
Qed.

(** X2.  SetEnabled(false) always ends in Disabled and sends no request; when
    the state was not Disabled before, the guide list, all three mark groups,
    the active guide, the error counter and the shown-guides set are emptied
    and the state listener, if registered, is told Disabled.  The request
    counter and the mark index are kept. *)
Theorem SetEnabled_false_clears s :
  let s' := SetEnabled false s in
  m_state s' = Disabled
  /\ (m_state s <> Disabled ->
      m_guides s' = []
      /\ m_bmManager s' = mkBookmarkManager [] [] []
      /\ m_activeGuide s' = EmptyString
      /\ m_errorRequestsCount s' = 0
      /\ m_shownGuides s' = ∅
      /\ notifications s'
         = notifications s
           ++ (if m_onStateChanged s then [StateChanged Disabled] else []))
  /\ m_api s' = m_api s
  /\ m_requestCounter s' = m_requestCounter s
  /\ m_nextMarkIndex s' = m_nextMarkIndex s.
Proof.
  cbn zeta. split; [apply SetEnabled_false_state|].
  unfold SetEnabled. case_bool_decide as Hst; cbn [negb].
  - split; [intros Hne; congruence|repeat split].
  - rewrite Clear_eq, ChangeState_eq. cbn.
    rewrite bool_decide_false by congruence.
    destruct (m_onStateChanged s); cbn; rewrite ?app_nil_r;
      (split; [intros _|]; repeat split).
Qed.

(** X3.  While the state is Disabled, any sequence of replies, successes and
    failures alike, leaves guides, marks, counters, state, listeners' log,
    shown-guides set and active guide as they were. *)
Theorem replies_after_disable_discarded s ops :
  m_state s = Disabled ->
  forallb is_reply ops = true ->
  reply_discarded s (run ops s) /\ m_shownGuides (run ops s) = m_shownGuides s
  /\ m_activeGuide (run ops s) = m_activeGuide s.
Proof.
  revert s. induction ops as [|op ops IH]; intros s Hst Hall.
  - repeat split.
  - cbn in Hall. apply andb_prop in Hall as [Hop Hall].
    assert (exists n, exec op s = answered n s) as [n Hexec].
    { destruct op as [| | | | | | | | |n guides|n]; try discriminate Hop;
        exists n; cbn [exec].
      - apply onSuccess_Disabled. exact Hst.
      - apply onFailure_off. left. exact Hst. }
    cbn [run fold_left]. change (fold_left _ ops (exec op s)) with (run ops (exec op s)).
    rewrite Hexec.
    destruct (IH (answered n s) Hst Hall) as ((H1 & H2 & H3 & H4 & H5 & H6) & H7 & H8).
    unfold reply_discarded. rewrite H1, H2, H3, H4, H5, H6, H7, H8.
    repeat split.
Qed.

(** X4.  UpdateViewport never changes the state, the guide list, the marks,
    the active guide, the shown-guides set, the error counter or the mark
    index, and never calls a listener. *)
Theorem UpdateViewport_keeps_data screen s :
  let s' := UpdateViewport screen s in
  m_state s' = m_state s
  /\ m_guides s' = m_guides s
  /\ m_bmManager s' = m_bmManager s
  /\ m_activeGuide s' = m_activeGuide s
  /\ m_shownGuides s' = m_shownGuides s
  /\ m_errorRequestsCount s' = m_errorRequestsCount s
  /\ m_nextMarkIndex s' = m_nextMarkIndex s
  /\ notifications s' = notifications s.
Proof.
  cbn zeta. unfold UpdateViewport.
  repeat case_match; rewrite ?RequestGuides_eq; repeat case_match; repeat split.
Qed.

(** X5.  In Disabled and FatalNetworkError UpdateViewport only records the
    screen and its tile scale; in any other state a screen whose rectangle
    has an empty interior is dropped without being recorded. *)
Theorem UpdateViewport_gates screen s :
  (m_state s = Disabled \/ m_state s = FatalNetworkError ->
   UpdateViewport screen s
   = set_zoom (GetDrawTileScale E screen) (set_screen screen s))
  /\ (m_state s <> Disabled -> m_state s <> FatalNetworkError ->
      IsEmptyInterior E (GlobalRect E screen) = true ->
      UpdateViewport screen s = s).
Proof.
  unfold UpdateViewport. split.
  - intros [Hst|Hst]; rewrite Hst; reflexivity.
  - intros Hd Hf Hempty. rewrite !bool_decide_false by assumption.
    cbn [orb]. rewrite Hempty. reflexivity.
Qed.

(** X6.  In an active state, a screen with a non-empty rectangle whose
    overlap score with the recorded one is at most 0.8 is recorded, whatever
    its scale; and, its tile scale not being 0, exactly one request is sent
    for it, numbered one above the request counter. *)
Theorem UpdateViewport_far_requests screen s :
  m_state s <> Disabled -> m_state s <> FatalNetworkError ->
  IsEmptyInterior E (GlobalRect E screen) = false ->
  (GetIntersectionScoreForPoints E
     (GetGlobalPoints E (GlobalRect E (m_screen s)))
     (GetGlobalPoints E (GlobalRect E screen)) <= 8 # 10)%Q ->
  let s' := UpdateViewport screen s in
  m_screen s' = screen
  /\ m_zoom s' = GetDrawTileScale E screen
  /\ (GetDrawTileScale E screen <> 0%Z ->
      m_requestCounter s' = m_requestCounter s + 1
      /\ m_api s'
         = m_api s ++ [mkRequest (GlobalRect E screen) (GetDrawTileScale E screen)
                                 (m_requestCounter s + 1)]).
Proof.
  intros Hd Hf Hempty Hscore. cbn zeta. unfold UpdateViewport.
  rewrite !bool_decide_false by assumption. cbn [orb]. rewrite Hempty.
  apply Qle_bool_iff in Hscore. rewrite Hscore. cbn [negb].
  rewrite !andb_false_r. rewrite RequestGuides_eq.
  unfold IsRequestParamsInitialized.
  cbn [m_screen m_zoom set_zoom set_screen]. rewrite Hempty. cbn [orb].
  destruct (GetDrawTileScale E screen =? 0)%Z eqn:Hz; cbn [negb].
  - apply Z.eqb_eq in Hz. repeat split; contradiction.
  - repeat split.
Qed.

(** X7.  A failure reply that is not discarded sends no request when its
    request number is not the current request counter; when it is, and the
    request parameters are initialised, it sends exactly one, for the stored
    rectangle and zoom. *)
Theorem failure_retries_latest_only requestNumber s :
  m_state s <> Disabled -> m_state s <> FatalNetworkError ->
  let s' := RequestGuides_onFailure requestNumber s in
  (requestNumber <> m_requestCounter s ->
   m_api s' = m_api s /\ m_requestCounter s' = m_requestCounter s)
  /\ (requestNumber = m_requestCounter s ->
      IsRequestParamsInitialized s = true ->
      m_requestCounter s' = m_requestCounter s + 1
      /\ m_api s'
         = m_api s ++ [mkRequest (GlobalRect E (m_screen s)) (m_zoom s)
                                 (m_requestCounter s + 1)]).
Proof.
  intros Hd Hf. cbn zeta. rewrite onFailure_eq by assumption. cbn zeta.
  rewrite Clear_eq.
  split.
  - intros Hne. apply N.eqb_neq in Hne. rewrite Hne.
    repeat (rewrite ?ChangeState_eq; cbn; first [case_bool_decide | case_match]);
      cbn; split; reflexivity.
  - intros -> Hinit. rewrite N.eqb_refl.
    repeat (rewrite ?ChangeState_eq, ?RequestGuides_eq; cbn;
            first [case_bool_decide | case_match]);
      cbn in *; try (split; reflexivity);
      repeat match goal with
             | H : IsRequestParamsInitialized ?x = _ |- _ =>
                 progress change (IsRequestParamsInitialized x)
                   with (IsRequestParamsInitialized s) in H
             end;
      congruence.
Qed.

(** X8.  Reconnect does nothing unless the state is FatalNetworkError.  From
    there it makes the state Enabled, tells the state listener if one is
    registered, keeps the guide list, sends one request when the request
    parameters are initialised, and a second Reconnect does nothing. *)
Theorem Reconnect_only_from_fatal s :
  (m_state s <> FatalNetworkError -> Reconnect s = s)
  /\ (m_state s = FatalNetworkError ->
      let s' := Reconnect s in
      m_state s' = Enabled
      /\ notifications s'
         = notifications s
           ++ (if m_onStateChanged s then [StateChanged Enabled] else [])
      /\ m_guides s' = m_guides s
      /\ (IsRequestParamsInitialized s = true ->
          m_requestCounter s' = m_requestCounter s + 1
          /\ m_api s'
             = m_api s ++ [mkRequest (GlobalRect E (m_screen s)) (m_zoom s)
                                     (m_requestCounter s + 1)])
      /\ Reconnect s' = s').
Proof.
  unfold Reconnect. split.
  - intros Hne. rewrite bool_decide_false by exact Hne. reflexivity.
  - intros Hst. cbn zeta. rewrite bool_decide_true by exact Hst. cbn [negb].
    rewrite RequestGuides_eq, ChangeState_eq.
    rewrite bool_decide_false by congruence.
    destruct (m_onStateChanged s); cbn;
      change (IsRequestParamsInitialized _) with (IsRequestParamsInitialized s);
      destruct (IsRequestParamsInitialized s); cbn; rewrite ?app_nil_r;
      repeat split; congruence.
Qed.

(** X9.  A success reply outside Disabled stores its guides, resets the error
    counter, makes the state HasData exactly when the reply is non-empty and
    NoData exactly when it is empty, calls a registered gallery listener
    last, with reload = true, and sends no request. *)
Theorem success_stores_guides guides s :
  m_state s <> Disabled ->
  let s' := RequestGuides_onSuccess guides s in
  m_guides s' = guides
  /\ m_errorRequestsCount s' = 0
  /\ (m_state s' = HasData <-> guides <> [])
  /\ (m_state s' = NoData <-> guides = [])
  /\ (m_onGalleryChanged s = true ->
      exists log, notifications s' = log ++ [GalleryChanged true])
  /\ m_api s' = m_api s
  /\ m_requestCounter s' = m_requestCounter s.
Proof.
  intros Hd. cbn zeta.
  destruct (onSuccess_eq guides s Hd) as (ag & sh & idx & bm & _ & ->).
  cbn. repeat split; try (destruct guides; done).
  intros ->. eexists. rewrite app_assoc. reflexivity.
Qed.

(** X10.  UpdateGuidesMarks advances the mark index by the number of guides,
    adds to the shown-guides set exactly the ids of the records that fail
    its cluster test (combined count, added in the type of the counts, above
    one), and leaves one cluster or single-guide mark per guide. *)
Theorem UpdateGuidesMarks_rebuilds s :
  let s' := UpdateGuidesMarks s in
  m_nextMarkIndex s' = m_nextMarkIndex s + N.of_nat (length (m_guides s))
  /\ m_shownGuides s'
     = m_shownGuides s
       ∪ list_to_set (guide_ids (List.filter (gets_guide_mark E) (m_guides s)))
  /\ (length (group_GUIDE_CLUSTER (m_bmManager s'))
      + length (group_GUIDE (m_bmManager s')) = length (m_guides s))%nat.
Proof.
  destruct (UpdateGuidesMarks_effect s) as (Hcl & Hgl & Hidx & Hsh & _).
  cbn zeta in *. split; [exact Hidx|]. split; [exact Hsh|].
  apply (f_equal length) in Hcl, Hgl. rewrite !length_map in Hcl, Hgl.
  rewrite Hcl, Hgl. apply clusters_and_singles.
Qed.

(** X11.  No operation and no reply lowers the request counter or the mark
    index, and none raises the request counter by more than one. *)
Theorem counters_never_decrease s op :
  m_requestCounter s <= m_requestCounter (exec op s) <= m_requestCounter s + 1
  /\ m_nextMarkIndex s <= m_nextMarkIndex (exec op s).
Proof.
  destruct op as [fn|screen| | |enabled|guideId|fn|mark screen|mark|n guides|n];
    cbn [exec].
  10: { destruct (decide (m_state s = Disabled)) as [Hd|Hd].
        - rewrite onSuccess_Disabled by exact Hd. cbn. lia.
        - pose proof (onSuccess_marks_part guides (answered n s) Hd) as Hpart.
          pose proof (onSuccess_stored_part guides (answered n s)) as Hstored.
          destruct (UpdateGuidesMarks_effect (onSuccess_stored guides (answered n s)))
            as (_ & _ & Hidx & _).
          unfold marks_part in *. cbn zeta in *.
          injection Hpart as _ _ _ Hi _. injection Hstored as _ _ _ Hi0 _.
          destruct (onSuccess_eq guides (answered n s) Hd)
            as (ag & sh & idx & bm & _ & Heq).
          rewrite Hi, Hidx, Hi0. rewrite Heq. cbn. lia. }
  1-9: by (call_cases; lia).
  reply_cases s; lia.
Qed.

End SingleOperations.

(** X12.  DebugPrint gives different states different names. *)
Theorem DebugPrint_injective (a b : GuidesState) :
  DebugPrint a = DebugPrint b -> a = b.
Proof. destruct a, b; cbn; intros H; first [reflexivity | discriminate H]. Qed.

(** *** The properties above on the sample *)

Lemma replies_after_disable_discarded_witness :
  let s := run (Sample.enable ++ [CallSetEnabled false]) (init Sample.env) in
  reply_discarded s
    (run [ReplyFailure 1; ReplySuccess 1 [Sample.cityGuide]] s).
Proof.
  intros s.
  apply (@replies_after_disable_discarded Sample.env s
           [ReplyFailure 1; ReplySuccess 1 [Sample.cityGuide]]).
  - vm_compute. reflexivity.
  - vm_compute. reflexivity.
Defined.

Lemma UpdateViewport_far_requests_witness :
  let s := run Sample.enable (init Sample.env) in
  m_screen (UpdateViewport Sample.screenC s) = Sample.screenC.
Proof.
  intros s.
  apply (@UpdateViewport_far_requests Sample.env Sample.screenC s).
  - vm_compute. discriminate.
  - vm_compute. discriminate.
  - vm_compute. reflexivity.
  - vm_compute. discriminate.
Defined.

Lemma failure_retries_latest_only_witness :
  let s := run Sample.enable (init Sample.env) in
  m_requestCounter (RequestGuides_onFailure 1 s) = m_requestCounter s + 1.
Proof.
  intros s.
  destruct (@failure_retries_latest_only Sample.env 1 s) as [_ H].
  - vm_compute. discriminate.
  - vm_compute. discriminate.
  - apply H; vm_compute; reflexivity.
Defined.

Lemma success_stores_guides_witness :
  let s := run Sample.enable (init Sample.env) in
  m_guides (RequestGuides_onSuccess [Sample.cityGuide] s) = [Sample.cityGuide].
Proof.
  intros s.
  apply (@success_stores_guides Sample.env [Sample.cityGuide] s).
  vm_compute. discriminate.
Defined.

Lemma DebugPrint_injective_witness : HasData = HasData.
Proof. apply DebugPrint_injective. reflexivity. Defined.

Lemma marks_follow_guides_witness :
  let s := run Sample.displayed (init Sample.env) in
  map guide_view (group_GUIDE (m_bmManager s))
  = map guide_shown (List.filter (gets_guide_mark Sample.env) (m_guides s)).
Proof.
  intros s. apply (@marks_follow_guides Sample.env s).
  apply run_reachable; [apply reachable_init|vm_compute; reflexivity].
Defined.

Lemma mark_indices_distinct_witness :
  NoDup (mark_indices (m_bmManager (run Sample.displayed (init Sample.env)))).
Proof.
  apply (@mark_indices_distinct Sample.env).
  apply run_reachable; [apply reachable_init|vm_compute; reflexivity].
Defined.

Lemma singles_are_shown_witness :
  "outdoor"%string ∈ m_shownGuides (run Sample.displayed (init Sample.env)).
Proof.
  apply (@singles_are_shown Sample.env _ Sample.outdoorGuide).
  - apply run_reachable; [apply reachable_init|vm_compute; reflexivity].
  - vm_compute. auto.
  - reflexivity.
Defined.

Lemma one_selection_mark_at_most_witness :
  (length (group_GUIDE_SELECTION
             (m_bmManager
                (run (Sample.displayed ++ [CallSetActiveGuide "city"])
                     (init Sample.env)))) <= 1)%nat.
Proof.
  apply (@one_selection_mark_at_most Sample.env).
  apply run_reachable; [apply reachable_init|vm_compute; reflexivity].
Defined.

Lemma gallery_items_have_marks_witness :
  let s := run Sample.displayed (init Sample.env) in
  sublist (map item_guideId (m_items (GetGallery s)))
          (map guide_id (group_GUIDE (m_bmManager s))).
Proof.
  intros s. apply (@gallery_items_have_marks Sample.env s).
  apply run_reachable; [apply reachable_init|vm_compute; reflexivity].
Defined.

Lemma pending_requests_numbered_witness :
  let s := run Sample.overtaken (init Sample.env) in
  numbered_from 0 (m_api s).
Proof.
  intros s. apply (@pending_requests_numbered Sample.env s).
  apply run_reachable; [apply reachable_init|vm_compute; reflexivity].
Defined.

Lemma error_counter_only_in_NetworkError_witness :
  let s := run (Sample.enable ++ [ReplyFailure 1]) (init Sample.env) in
  (m_state s = NetworkError
   /\ (m_errorRequestsCount s = 1 \/ m_errorRequestsCount s = 2))
  \/ (m_state s <> NetworkError /\ m_errorRequestsCount s = 0).
Proof.
  intros s. apply (@error_counter_only_in_NetworkError Sample.env s).
  apply run_reachable; [apply reachable_init|vm_compute; reflexivity].
Defined.

Lemma state_listener_up_to_date_witness :
  let s := run Sample.three_failures (init Sample.env) in
  last_told (notifications s) = Some (m_state s).
Proof.
  intros s. apply (@state_listener_up_to_date Sample.env s).
  - apply run_reachable; [apply reachable_init|vm_compute; reflexivity].
  - vm_compute. reflexivity.
Defined.
